(** * Standalone-Buffer: the rolling segment buffer and its download path

    A shallow embedding of [backend/app/ffmpeg_buffer.py], [backend/app/main.py]
    and [backend/app/config.py], and the properties of the segment selector,
    the retention sweep, the concatenation streamer and the download endpoint.

    Conventions of the embedding.
    - Epoch times ([time.time()], [st_mtime]) are Python floats; they are
      modelled as exact rationals [Q], in seconds.  The constants subtracted
      from them ([2.0], [keep_minutes * 60]) are integers.
    - Python [int] is [Z]; [st_size] is a file size and is [N].
    - A [bytes] value and a [str] value are both [string].
    - A path inside the buffer directory is identified with its file name.
    - A raised exception is a value of [result]; a [try/except Exception]
      is a match on it.
    - [print] calls have no effect on any result and are left out. *)

From Stdlib Require Import ZArith NArith QArith Bool List String Ascii.
From Stdlib Require Import DecimalString.
From Stdlib Require Import Sorted Permutation Lia Lqa.
Import ListNotations.

Set Implicit Arguments.

(* ================================================================= *)
(** ** Python values and control *)

Module Py.

Inductive exn : Type :=
| ZeroDivisionError
| ValueError
| OverflowError
| OSError
| FileNotFoundError
| PermissionError
| TimeoutExpired
| RequestValidationError
| HTTPException (status_code : Z) (detail : string).

Inductive result (A : Type) : Type :=
| Ok (a : A)
| Raise (e : exn).

Arguments Ok {A} a.
Arguments Raise {A} e.

Definition bind {A B : Type} (m : result A) (k : A -> result B) : result B :=
  match m with
  | Ok a => k a
  | Raise e => Raise e
  end.

Notation "x <- m ;; k" := (bind m (fun x => k))
  (at level 61, m at next level, right associativity).

(** [s.split(sep, 1)] for a one-character separator: the text before the
    first [sep] and the text after it, or [None] when [sep] does not occur
    (Python then returns the one-element list [[s]]). *)
Fixpoint split_first (sep : ascii) (s : string) : option (string * string) :=
  match s with
  | EmptyString => None
  | String c rest =>
      if Ascii.eqb c sep then Some (EmptyString, rest)
      else match split_first sep rest with
           | Some (before, after) => Some (String c before, after)
           | None => None
           end
  end.

(** [s.split(sep)[0]]. *)
Definition split_head (sep : ascii) (s : string) : string :=
  match split_first sep s with
  | Some (before, _) => before
  | None => s
  end.

(** [s.replace(old, new)] for a one-character [old]. *)
Fixpoint replace_char (old : ascii) (new : string) (s : string) : string :=
  match s with
  | EmptyString => EmptyString
  | String c rest =>
      if Ascii.eqb c old then (new ++ replace_char old new rest)%string
      else String c (replace_char old new rest)
  end.

(** [str(z)] of an [int]. *)
Definition str_int (z : Z) : string := NilZero.string_of_int (Z.to_int z).

(** [s[:n]] for [0 <= n]. *)
Definition str_take (n : nat) (s : string) : string := substring 0 n s.

(** [s.endswith(suf)]. *)
Definition endswith (suf s : string) : bool :=
  let n := String.length s in
  let k := String.length suf in
  (k <=? n)%nat && String.eqb (substring (n - k) k s) suf.

(** [s.startswith(pre)]. *)
Definition startswith (pre s : string) : bool := String.prefix pre s.

(** [int(x)] of a quotient of two integers: truncation toward zero.  The
    source divides with [/] (a float) and truncates with [int]; on integers
    below 2^53 in size this is the exact truncated quotient. *)
Definition int_truediv (a b : Z) : result Z :=
  if (b =? 0)%Z then Raise ZeroDivisionError else Ok (Z.quot a b).

(** [l[:k]]: the first [k] elements, and for a negative [k] all but the
    last [-k]. *)
Definition slice_to {A : Type} (k : Z) (l : list A) : list A :=
  if (k <? 0)%Z
  then firstn (Z.to_nat (Z.max 0 (Z.of_nat (List.length l) + k))) l
  else firstn (Z.to_nat k) l.

(** [list.sort(key=...)] is a stable sort that compares keys with [<] only.
    It is modelled as the stable insertion sort, which computes the same
    list as any stable sort does. *)
Section Sort.
Variables (A K : Type) (key : A -> K) (lt : K -> K -> bool).

Fixpoint insert (x : A) (l : list A) : list A :=
  match l with
  | [] => [x]
  | y :: l' => if lt (key y) (key x) then y :: insert x l' else x :: y :: l'
  end.

Fixpoint sort (l : list A) : list A :=
  match l with
  | [] => []
  | x :: l' => insert x (sort l')
  end.

(** [list.sort(key=..., reverse=True)]: CPython reverses the list, sorts
    it, and reverses it again, so that equal keys keep their order. *)
Definition sort_reverse (l : list A) : list A := rev (sort (rev l)).
End Sort.

End Py.

Import Py.

(* ================================================================= *)
(** ** [datetime] *)

(** A naive [datetime]; two of them compare as their field tuples do. *)
Record datetime : Type := mk_datetime {
  year : Z; month : Z; day : Z;
  hour : Z; minute : Z; second : Z; microsecond : Z
}.

Definition datetime_fields (d : datetime) : list Z :=
  [year d; month d; day d; hour d; minute d; second d; microsecond d].

Fixpoint lex_compare (a b : list Z) : comparison :=
  match a, b with
  | [], [] => Eq
  | [], _ :: _ => Lt
  | _ :: _, [] => Gt
  | x :: a', y :: b' =>
      match (x ?= y)%Z with
      | Eq => lex_compare a' b'
      | c => c
      end
  end.

Definition datetime_compare (a b : datetime) : comparison :=
  lex_compare (datetime_fields a) (datetime_fields b).

(** [a < b] *)
Definition datetime_ltb (a b : datetime) : bool :=
  match datetime_compare a b with Lt => true | _ => false end.

(** [a <= b] *)
Definition datetime_leb (a b : datetime) : bool :=
  match datetime_compare a b with Gt => false | _ => true end.

Definition datetime_le (a b : datetime) : Prop := datetime_leb a b = true.

(* ================================================================= *)
(** ** The buffer directory *)

(** What [path.stat()] returns, as far as the program reads it. *)
Record stat_result : Type := mk_stat {
  st_size : N;
  st_mtime : Q
}.

(** One entry of the buffer directory, as one call observes it.
    [e_stat = None] is an entry whose [stat()] raises [OSError] (it vanished
    after the listing, or cannot be read); [e_unlink_ok = false] is an entry
    whose [unlink()] raises. *)
Record entry : Type := mk_entry {
  e_name : string;
  e_is_file : bool;
  e_stat : option stat_result;
  e_unlink_ok : bool
}.

(** The buffer directory: [None] when it does not exist, else its entries in
    the order in which the operating system lists them. *)
Definition directory : Type := option (list entry).

Definition entries (d : directory) : list entry :=
  match d with
  | Some es => es
  | None => []
  end.

Fixpoint lookup (name : string) (es : list entry) : option entry :=
  match es with
  | [] => None
  | e :: es' => if String.eqb (e_name e) name then Some e else lookup name es'
  end.

(** [path.exists()] *)
Definition path_exists (d : directory) (path : string) : bool :=
  match lookup path (entries d) with
  | Some _ => true
  | None => false
  end.

(** [path.stat()] *)
Definition stat (d : directory) (path : string) : result stat_result :=
  match lookup path (entries d) with
  | None => Raise FileNotFoundError
  | Some e =>
      match e_stat e with
      | Some st => Ok st
      | None => Raise OSError
      end
  end.

(** [path.unlink(missing_ok=True)]: removes the entry; a missing entry is
    not an error. *)
Definition unlink (d : directory) (path : string) : result directory :=
  match lookup path (entries d) with
  | None => Ok d
  | Some e =>
      if e_unlink_ok e
      then Ok (option_map
                 (filter (fun e' => negb (String.eqb (e_name e') path))) d)
      else Raise PermissionError
  end.

(** The names the pattern [seg_*.mp3] matches. *)
Definition glob_seg_mp3 (name : string) : bool :=
  startswith "seg_" name && endswith ".mp3" name.

(* ================================================================= *)
(** ** [config.py] *)

Record Settings : Type := mk_settings {
  STREAM_URL : string;
  BUFFER_DIR : string;
  SEGMENT_SECONDS : Z;
  BUFFER_MINUTES : Z;
  CLEANUP_MARGIN_MINUTES : Z;
  MAX_DOWNLOAD_MINUTES : Z;
  FFMPEG_PATH : string;
  AUDIO_BITRATE : Z
}.

(** The values taken when no environment variable overrides them. *)
Definition default_settings : Settings :=
  {| STREAM_URL := "http://157.91.66.31:8888/wfyi-hd1";
     BUFFER_DIR := "storage/segments";
     SEGMENT_SECONDS := 2;
     BUFFER_MINUTES := 12;
     CLEANUP_MARGIN_MINUTES := 2;
     MAX_DOWNLOAD_MINUTES := 30;
     FFMPEG_PATH := "ffmpeg";
     AUDIO_BITRATE := 128000 |}.

(* ================================================================= *)
(** ** The Python library functions the program calls *)

(** [datetime.strptime], [datetime.utcfromtimestamp], the text of an
    exception and the UTF-8 decoder belong to the Python standard library,
    not to this program; the program is modelled over any behaviour of
    them. *)
Class PyLib : Type := {
  strptime : string -> string -> result datetime;
  utcfromtimestamp : Q -> result datetime;
  (** [str(exc)] *)
  str_exn : exn -> string;
  (** [data.decode("utf-8", errors="ignore")] *)
  decode_ignore : string -> string
}.

(* ================================================================= *)
(** ** [ffmpeg_buffer.py]: [FFmpegBufferManager] *)

Record FFmpegBufferManager : Type := mk_manager {
  segment_seconds : Z;
  buffer_minutes : Z;
  cleanup_margin_minutes : Z;
  ffmpeg_path : string;
  stream_url : string;
  audio_bitrate_bps : Z
}.

(** [__init__] *)
Definition init_manager (settings : Settings) : FFmpegBufferManager :=
  {| segment_seconds := SEGMENT_SECONDS settings;
     buffer_minutes := BUFFER_MINUTES settings;
     cleanup_margin_minutes := CLEANUP_MARGIN_MINUTES settings;
     ffmpeg_path := FFMPEG_PATH settings;
     stream_url := STREAM_URL settings;
     audio_bitrate_bps := AUDIO_BITRATE settings |}.

Definition Qlt_bool (a b : Q) : bool := negb (Qle_bool b a).

(** [_iter_segment_files]: the names of the regular files of the buffer
    directory that match [seg_*.mp3], in listing order; the empty list when
    the directory does not exist. *)
Definition _iter_segment_files (buffer_dir : directory) : list string :=
  match buffer_dir with
  | None => []
  | Some es =>
      map e_name
        (filter (fun p => glob_seg_mp3 (e_name p) && e_is_file p) es)
  end.

(** *** The retention sweep *)

Record sweep_state : Type := mk_sweep {
  sw_dir : directory;
  deleted_count : Z;
  kept_count : Z
}.

(** The body of the [for] loop of [_cleanup_old_segments], with its
    [try/except Exception]. *)
Definition sweep_file (cutoff_ts : Q) (s : sweep_state) (path : string)
  : sweep_state :=
  let attempt :=
    st <- stat (sw_dir s) path ;;
    let mtime_ts := st_mtime st in
    if Qlt_bool mtime_ts cutoff_ts then
      d' <- unlink (sw_dir s) path ;;
      Ok {| sw_dir := d';
            deleted_count := deleted_count s + 1;
            kept_count := kept_count s |}
    else
      Ok {| sw_dir := sw_dir s;
            deleted_count := deleted_count s;
            kept_count := kept_count s + 1 |}
  in
  match attempt with
  | Ok s' => s'
  | Raise _ => s
  end.

(** [_cleanup_old_segments], one tick of the sweeper, with the clock
    reading [now_ts]. *)
Definition _cleanup_old_segments (self : FFmpegBufferManager)
    (buffer_dir : directory) (now_ts : Q) : sweep_state :=
  let keep_minutes := (buffer_minutes self + cleanup_margin_minutes self)%Z in
  let cutoff_ts := now_ts - inject_Z (keep_minutes * 60) in
  let all_segments := _iter_segment_files buffer_dir in
  fold_left (sweep_file cutoff_ts) all_segments
    {| sw_dir := buffer_dir; deleted_count := 0; kept_count := 0 |}.

Section Selector.
Context {lib : PyLib}.

(** [_timestamp_from_name]: any exception inside gives [None]. *)
Definition _timestamp_from_name (name : string) : option datetime :=
  let attempt :=
    let stem := split_head "." name in
    match split_first "_" stem with
    | None => Raise ValueError
    | Some (_, ts) => strptime ts "%Y%m%d_%H%M%S"
    end
  in
  match attempt with
  | Ok d => Some d
  | Raise _ => None
  end.

(** The body of the [try] in the loop of [recent_segments_for_minutes]:
    [Ok None] is a [continue], [Ok (Some _)] the pair that is appended. *)
Definition examine_segment (buffer_dir : directory) (now_ts cutoff_ts : Q)
    (path : string) : result (option (string * datetime)) :=
  stat_info <- stat buffer_dir path ;;
  let file_size := st_size stat_info in
  if (file_size =? 0)%N then Ok None
  else
    let mtime_ts := st_mtime stat_info in
    if Qle_bool cutoff_ts mtime_ts then Ok None
    else
      match _timestamp_from_name path with
      | Some ts => Ok (Some (path, ts))
      | None =>
          ts <- utcfromtimestamp mtime_ts ;;
          Ok (Some (path, ts))
      end.

(** One iteration of that loop, with its [except Exception: continue]. *)
Definition collect_step (buffer_dir : directory) (now_ts cutoff_ts : Q)
    (stable_segments : list (string * datetime)) (path : string)
  : list (string * datetime) :=
  match examine_segment buffer_dir now_ts cutoff_ts path with
  | Ok (Some seg) => stable_segments ++ [seg]
  | Ok None => stable_segments
  | Raise _ => stable_segments
  end.

(** [stable_segments] after the loop. *)
Definition stable_segments_of (buffer_dir : directory) (now_ts : Q)
  : list (string * datetime) :=
  let cutoff_ts := now_ts - 2 in
  let all_files := _iter_segment_files buffer_dir in
  fold_left (collect_step buffer_dir now_ts cutoff_ts) all_files [].

(** [segments_needed] *)
Definition segments_needed_for (self : FFmpegBufferManager) (minutes : Z)
  : result Z :=
  let target_seconds := (minutes * 60)%Z in
  segments_needed_raw <- int_truediv target_seconds (segment_seconds self) ;;
  Ok (segments_needed_raw + 1)%Z.

(** [selected] at the end of [recent_segments_for_minutes]: the chosen
    segments with their timestamps, oldest first. *)
Definition selected_segments (self : FFmpegBufferManager)
    (buffer_dir : directory) (now_ts : Q) (minutes : Z)
  : result (list (string * datetime)) :=
  if (minutes <=? 0)%Z then Ok []
  else
    let stable_segments := stable_segments_of buffer_dir now_ts in
    match stable_segments with
    | [] => Ok []
    | _ :: _ =>
        let stable_segments :=
          sort_reverse (@snd string datetime) datetime_ltb stable_segments in
        segments_needed <- segments_needed_for self minutes ;;
        let segments_to_take :=
          Z.min segments_needed (Z.of_nat (List.length stable_segments)) in
        let selected := slice_to segments_to_take stable_segments in
        let selected := sort (@snd string datetime) datetime_ltb selected in
        Ok selected
    end.

(** [recent_segments_for_minutes] *)
Definition recent_segments_for_minutes (self : FFmpegBufferManager)
    (buffer_dir : directory) (now_ts : Q) (minutes : Z)
  : result (list string) :=
  selected <- selected_segments self buffer_dir now_ts minutes ;;
  Ok (map fst selected).

End Selector.

(* ================================================================= *)
(** ** [main.py]: the concatenation streamer and the download endpoint *)

(** A pipe of a child process: the outcomes of its successive [read] calls;
    once they are used up, [read] returns [b""] (end of file). *)
Definition pipe : Type := list (result string).

Definition pipe_read (p : pipe) : result string * pipe :=
  match p with
  | [] => (Ok EmptyString, [])
  | r :: p' => (r, p')
  end.

(** The concatenator process, as [_gen] uses it. *)
Record process : Type := mk_process {
  pid : Z;
  proc_stdout : pipe;
  proc_stderr : pipe;
  (** [proc.wait(timeout=5)] *)
  proc_wait : result Z
}.

(** What the operating system answers to [_concat_stream]. *)
Record os_env : Type := mk_os {
  (** [tempfile.NamedTemporaryFile(...)] and the writes to it: the name of
      the file, or a failure. *)
  os_mktemp : result string;
  (** [subprocess.Popen(cmd, ...)] *)
  os_popen : list string -> result process
}.

(** The effects of a request outside the buffer directory. *)
Record world : Type := mk_world {
  (** temporary manifest files that exist, with their contents *)
  w_tmp : list (string * string);
  (** the commands of the processes spawned so far *)
  w_spawned : list (list string);
  (** the processes killed so far *)
  w_killed : list Z
}.

Definition tmp_remove (path : string) (w : world) : world :=
  {| w_tmp := filter (fun f => negb (String.eqb (fst f) path)) (w_tmp w);
     w_spawned := w_spawned w;
     w_killed := w_killed w |}.

Definition tmp_create (path content : string) (w : world) : world :=
  {| w_tmp := (path, content) :: w_tmp w;
     w_spawned := w_spawned w;
     w_killed := w_killed w |}.

Definition spawn (cmd : list string) (w : world) : world :=
  {| w_tmp := w_tmp w;
     w_spawned := w_spawned w ++ [cmd];
     w_killed := w_killed w |}.

Definition kill (p : process) (w : world) : world :=
  {| w_tmp := w_tmp w;
     w_spawned := w_spawned w;
     w_killed := w_killed w ++ [pid p] |}.

(** The generator object [_gen()] closes over. *)
Record generator : Type := mk_generator {
  g_proc : process;
  g_list_path : string
}.

(** What [_concat_stream] returns: the list [[]] or the generator. *)
Inductive iterable : Type :=
| IterList (chunks : list string)
| IterGen (g : generator).

(** How an iteration ends: the iterator is exhausted, or an exception
    reaches the consumer. *)
Inductive ending : Type :=
| Exhausted
| Raised (e : exn).

(** A completed iteration: the chunks delivered, in order, and then the
    ending. *)
Record delivery : Type := mk_delivery {
  delivered : list string;
  ended : ending
}.

(** The [minutes] query parameter of a request, as the framework receives
    it: missing, not the text of an integer, or an integer. *)
Inductive query_param : Type :=
| Absent
| NotAnInteger
| IntValue (z : Z).

Record StreamingResponse : Type := mk_response {
  body : iterable;
  media_type : string;
  headers : list (string * string)
}.

Section Main.
Context {lib : PyLib}.
Variable settings : Settings.

(** The loop of [_concat_stream] that filters [file_list]; [p.stat()] is
    outside any [try]. *)
Fixpoint valid_files_of (buffer_dir : directory) (file_list : list string)
  : result (list string) :=
  match file_list with
  | [] => Ok []
  | p :: rest =>
      if negb (path_exists buffer_dir p) then valid_files_of buffer_dir rest
      else
        st <- stat buffer_dir p ;;
        let size := st_size st in
        if (size =? 0)%N then valid_files_of buffer_dir rest
        else
          valid_files <- valid_files_of buffer_dir rest ;;
          Ok (p :: valid_files)
  end.

(** One line of the manifest. *)
Definition manifest_line (p : string) : string :=
  let abs_path := (BUFFER_DIR settings ++ "/" ++ p)%string in
  let escaped :=
    replace_char "\" "/" (replace_char "'" "'\''" abs_path) in
  ("file '" ++ escaped ++ "'" ++ String (ascii_of_nat 10) "")%string.

Definition manifest (valid_files : list string) : string :=
  String.concat "" (map manifest_line valid_files).

Definition concat_cmd (list_path : string) : list string :=
  [FFMPEG_PATH settings; "-hide_banner"; "-loglevel"; "error"; "-nostdin";
   "-f"; "concat"; "-safe"; "0"; "-i"; list_path;
   "-c"; "copy"; "-f"; "mp3"; "pipe:1"]%string.

(** [_concat_stream]: the world after the call and what it returns. *)
Definition _concat_stream (os : os_env) (buffer_dir : directory) (w : world)
    (file_list : list string) : world * result iterable :=
  match file_list with
  | [] => (w, Ok (IterList []))
  | _ :: _ =>
      match valid_files_of buffer_dir file_list with
      | Raise e => (w, Raise e)
      | Ok [] => (w, Ok (IterList []))
      | Ok ((_ :: _) as valid_files) =>
          match os_mktemp os with
          | Raise exc =>
              (w, Raise (HTTPException 500
                           ("FFmpeg setup failed: " ++ str_exn exc)))
          | Ok list_path =>
              let w1 := tmp_create list_path (manifest valid_files) w in
              let cmd := concat_cmd list_path in
              match os_popen os cmd with
              | Raise exc =>
                  (tmp_remove list_path w1,
                   Raise (HTTPException 500
                            ("FFmpeg setup failed: " ++ str_exn exc)))
              | Ok proc =>
                  (spawn cmd w1,
                   Ok (IterGen {| g_proc := proc;
                                  g_list_path := list_path |}))
              end
          end
      end
  end.

(** The [while True] loop of [_gen]: the chunks yielded, the count
    [bytes_yielded], and whether the loop left by [break] or by an
    exception of [read]. *)
Fixpoint read_loop (stdout : pipe) (bytes_yielded : Z)
  : list string * Z * result unit :=
  match stdout with
  | [] => ([], bytes_yielded, Ok tt)
  | Raise e :: _ => ([], bytes_yielded, Raise e)
  | Ok chunk :: rest =>
      match chunk with
      | EmptyString => ([], bytes_yielded, Ok tt)
      | String _ _ =>
          let '(chunks, n, r) :=
            read_loop rest (bytes_yielded + Z.of_nat (String.length chunk)) in
          (chunk :: chunks, n, r)
      end
  end.

(** The [finally] block of [_gen]. *)
Definition gen_cleanup (g : generator) (w : world) : world :=
  let w1 :=
    match proc_wait (g_proc g) with
    | Ok _ => w
    | Raise _ => kill (g_proc g) w   (* both [except] clauses kill *)
    end in
  tmp_remove (g_list_path g) w1.

(** [_gen], iterated by its consumer until it ends. *)
Definition run_gen (g : generator) (w : world) : world * delivery :=
  let proc := g_proc g in
  let '(chunks, _, loop_end) := read_loop (proc_stdout proc) 0 in
  let body_end : result unit :=
    match loop_end with
    | Ok _ =>
        (* stderr_data = proc.stderr.read() *)
        match fst (pipe_read (proc_stderr proc)) with
        | Ok _ => Ok tt
        | Raise e => Raise e
        end
    | Raise e => Raise e
    end in
  let ending_of_body :=
    match body_end with
    | Ok _ => Exhausted
    | Raise e =>
        (* except Exception as e: read stderr once more, then raise *)
        let stderr_pipe :=
          match loop_end with
          | Ok _ => snd (pipe_read (proc_stderr proc))
          | Raise _ => proc_stderr proc
          end in
        let stderr_data :=
          match fst (pipe_read stderr_pipe) with
          | Ok data => data
          | Raise _ => EmptyString
          end in
        Raised (HTTPException 500
                  ("FFmpeg read failed: " ++ str_exn e ++ ". stderr: "
                   ++ str_take 200 (decode_ignore stderr_data)))
    end in
  (gen_cleanup g w, {| delivered := chunks; ended := ending_of_body |}).

(** Iterating what [_concat_stream] returned. *)
Definition iterate (it : iterable) (w : world) : world * delivery :=
  match it with
  | IterList chunks => (w, {| delivered := chunks; ended := Exhausted |})
  | IterGen g => run_gen g w
  end.

(** [Query(2, ge=1, le=30)] *)
Definition query_minutes (p : query_param) : result Z :=
  match p with
  | Absent => Ok 2%Z
  | NotAnInteger => Raise RequestValidationError
  | IntValue z =>
      if ((1 <=? z) && (z <=? 30))%Z then Ok z
      else Raise RequestValidationError
  end.

(** [download].  [dir_listing] is the buffer directory as the selector
    sees it, [dir_use] as the streamer sees it afterwards. *)
Definition download (manager : FFmpegBufferManager) (os : os_env)
    (dir_listing : directory) (now_ts : Q) (dir_use : directory)
    (w : world) (p : query_param) : world * result StreamingResponse :=
  match query_minutes p with
  | Raise e => (w, Raise e)
  | Ok minutes =>
      match recent_segments_for_minutes manager dir_listing now_ts minutes with
      | Raise e => (w, Raise e)
      | Ok [] =>
          (w, Raise (HTTPException 503
                       "Buffer not ready yet; please try again shortly"))
      | Ok ((_ :: _) as files) =>
          match _concat_stream os dir_use w files with
          | (w', Raise e) => (w', Raise e)
          | (w', Ok stream) =>
              (w', Ok {| body := stream;
                         media_type := "audio/mpeg";
                         headers :=
                           [("Content-Disposition",
                             "attachment; filename=last-"
                             ++ str_int minutes ++ "-minutes.mp3");
                            ("Cache-Control", "no-store")]%string |})
          end
      end
  end.

(** The status line FastAPI sends for the outcome of a handler. *)
Definition http_status (r : result StreamingResponse) : Z :=
  match r with
  | Ok _ => 200
  | Raise (HTTPException status_code _) => status_code
  | Raise RequestValidationError => 422
  | Raise _ => 500
  end.

End Main.

(* ================================================================= *)
(** ** The rest of [ffmpeg_buffer.py] and [main.py] *)


(** [_run_cleaner]: the loop body runs once for each clock reading of
    [ticks], in order, the stop event being set after the last of them;
    nothing else writes to the directory meanwhile. *)
Definition _run_cleaner (self : FFmpegBufferManager) (buffer_dir : directory)
    (ticks : list Q) : directory :=
  fold_left (fun d now_ts => sw_dir (_cleanup_old_segments self d now_ts))
    ticks buffer_dir.

(** *** The generator [_gen], one [next] at a time *)

Inductive gen_status : Type :=
| GenCreated      (* the body has not started *)
| GenSuspended    (* stopped at [yield chunk] *)
| GenClosed.      (* the body has ended *)

Record gen_state : Type := mk_gen_state {
  gs_status : gen_status;
  gs_stdout : pipe;
  gs_stderr : pipe;
  gs_bytes_yielded : Z
}.

(** What a [next(...)] gives its caller. *)
Inductive gen_step : Type :=
| Yielded (chunk : string)
| StopIteration
| Thrown (e : exn).

(** The object [_gen()] returns, before its first [next]. *)
Definition gen_start (g : generator) : gen_state :=
  {| gs_status := GenCreated;
     gs_stdout := proc_stdout (g_proc g);
     gs_stderr := proc_stderr (g_proc g);
     gs_bytes_yielded := 0 |}.

Definition gen_closed (st : gen_state) (stdout stderr : pipe) : gen_state :=
  {| gs_status := GenClosed;
     gs_stdout := stdout;
     gs_stderr := stderr;
     gs_bytes_yielded := gs_bytes_yielded st |}.

Section Generator.
Context {lib : PyLib}.

(** The [except Exception as e] clause of [_gen]: one more read of the
    error pipe, whose failure is ignored, and the exception raised. *)
Definition gen_except (e : exn) (stderr : pipe) : exn * pipe :=
  let '(r, stderr') := pipe_read stderr in
  let stderr_data :=
    match r with
    | Ok data => data
    | Raise _ => EmptyString
    end in
  (HTTPException 500
     ("FFmpeg read failed: " ++ str_exn e ++ ". stderr: "
      ++ str_take 200 (decode_ignore stderr_data)),
   stderr').

(** [next(gen)]: the body runs from where it stands to its next [yield] or
    to its end; the [finally] block runs when the body ends. *)
Definition gen_next (g : generator) (st : gen_state) (w : world)
  : gen_state * world * gen_step :=
  match gs_status st with
  | GenClosed => (st, w, StopIteration)
  | _ =>
      match pipe_read (gs_stdout st) with
      | (Ok (String _ _ as chunk), stdout') =>
          ({| gs_status := GenSuspended;
              gs_stdout := stdout';
              gs_stderr := gs_stderr st;
              gs_bytes_yielded :=
                gs_bytes_yielded st + Z.of_nat (String.length chunk) |},
           w, Yielded chunk)
      | (Ok EmptyString, stdout') =>
          match pipe_read (gs_stderr st) with
          | (Ok _, stderr') =>
              (gen_closed st stdout' stderr', gen_cleanup g w, StopIteration)
          | (Raise e, stderr') =>
              let '(exc, stderr'') := gen_except e stderr' in
              (gen_closed st stdout' stderr'', gen_cleanup g w, Thrown exc)
          end
      | (Raise e, stdout') =>
          let '(exc, stderr') := gen_except e (gs_stderr st) in
          (gen_closed st stdout' stderr', gen_cleanup g w, Thrown exc)
      end
  end.

(** [gen.close()]: a generator that has not started just ends; one that is
    suspended receives [GeneratorExit] at its [yield], which
    [except Exception] does not catch, so only the [finally] block runs. *)
Definition gen_close (g : generator) (st : gen_state) (w : world)
  : gen_state * world :=
  match gs_status st with
  | GenCreated => (gen_closed st (gs_stdout st) (gs_stderr st), w)
  | GenSuspended =>
      (gen_closed st (gs_stdout st) (gs_stderr st), gen_cleanup g w)
  | GenClosed => (st, w)
  end.

(** A consumer that calls [next] until the generator ends, at most [fuel]
    times. *)
Fixpoint gen_drain (fuel : nat) (g : generator) (st : gen_state) (w : world)
  : world * delivery :=
  match fuel with
  | O => (w, {| delivered := []; ended := Exhausted |})
  | S fuel' =>
      match gen_next g st w with
      | (st', w', Yielded chunk) =>
          let '(w'', d) := gen_drain fuel' g st' w' in
          (w'', {| delivered := chunk :: delivered d; ended := ended d |})
      | (_, w', StopIteration) =>
          (w', {| delivered := []; ended := Exhausted |})
      | (_, w', Thrown e) => (w', {| delivered := []; ended := Raised e |})
      end
  end.

(** A consumer that takes at most [n] chunks and then closes the
    generator (a client that goes away). *)
Fixpoint gen_take (n : nat) (g : generator) (st : gen_state) (w : world)
  : gen_state * world * delivery :=
  match n with
  | O =>
      let '(st', w') := gen_close g st w in
      (st', w', {| delivered := []; ended := Exhausted |})
  | S n' =>
      match gen_next g st w with
      | (st', w', Yielded chunk) =>
          let '(st'', w'', d) := gen_take n' g st' w' in
          (st'', w'', {| delivered := chunk :: delivered d; ended := ended d |})
      | (st', w', StopIteration) =>
          (st', w', {| delivered := []; ended := Exhausted |})
      | (st', w', Thrown e) =>
          (st', w', {| delivered := []; ended := Raised e |})
      end
  end.

End Generator.

(** *** [debug_segments] *)

(** One element of ["files"] in the answer of [debug_segments]. *)
Record file_info : Type := mk_file_info {
  fi_name : string;
  fi_size_bytes : N;
  fi_mtime : Q;
  fi_path : string
}.

Record debug_response : Type := mk_debug_response {
  dr_count : Z;
  dr_files : list file_info
}.

(** [Query(1, ge=1)] *)
Definition query_minutes_debug (p : query_param) : result Z :=
  match p with
  | Absent => Ok 1%Z
  | NotAnInteger => Raise RequestValidationError
  | IntValue z =>
      if (1 <=? z)%Z then Ok z else Raise RequestValidationError
  end.

Section Debug.
Context {lib : PyLib}.
Variable settings : Settings.

(** The dictionary built for one file: [f.exists()] and [f.stat()] are
    evaluated for the size and again for the modification time. *)
Definition describe_file (buffer_dir : directory) (f : string)
  : result file_info :=
  size_bytes <-
    (if path_exists buffer_dir f
     then st <- stat buffer_dir f ;; Ok (st_size st)
     else Ok 0%N) ;;
  mtime <-
    (if path_exists buffer_dir f
     then st <- stat buffer_dir f ;; Ok (st_mtime st)
     else Ok 0%Q) ;;
  Ok {| fi_name := f;
        fi_size_bytes := size_bytes;
        fi_mtime := mtime;
        fi_path := (BUFFER_DIR settings ++ "/" ++ f)%string |}.

Fixpoint describe_files (buffer_dir : directory) (files : list string)
  : result (list file_info) :=
  match files with
  | [] => Ok []
  | f :: rest =>
      info <- describe_file buffer_dir f ;;
      infos <- describe_files buffer_dir rest ;;
      Ok (info :: infos)
  end.

(** [debug_segments].  [dir_listing] is the buffer directory as the selector
    sees it, [dir_use] as the comprehension sees it afterwards. *)
Definition debug_segments (manager : FFmpegBufferManager)
    (dir_listing : directory) (now_ts : Q) (dir_use : directory)
    (p : query_param) : result debug_response :=
  minutes <- query_minutes_debug p ;;
  files <- recent_segments_for_minutes manager dir_listing now_ts minutes ;;
  infos <- describe_files dir_use files ;;
  Ok {| dr_count := Z.of_nat (List.length files); dr_files := infos |}.

End Debug.

(* ================================================================= *)
(** ** A concrete library, for evaluating the program on examples *)

Module Concrete.

Local Open Scope string_scope.

Definition digit_of (c : ascii) : option Z :=
  let n := nat_of_ascii c in
  if ((48 <=? n) && (n <=? 57))%nat then Some (Z.of_nat (n - 48)) else None.

(** Reads exactly [n] decimal digits. *)
Fixpoint read_digits (n : nat) (acc : Z) (s : string) : option (Z * string) :=
  match n with
  | O => Some (acc, s)
  | S n' =>
      match s with
      | EmptyString => None
      | String c rest =>
          match digit_of c with
          | Some d => read_digits n' (10 * acc + d) rest
          | None => None
          end
      end
  end.

Definition is_leap (y : Z) : bool :=
  ((y mod 4 =? 0) && (negb (y mod 100 =? 0) || (y mod 400 =? 0)))%Z.

Definition days_in_month (y m : Z) : Z :=
  if (m =? 2)%Z then (if is_leap y then 29 else 28)
  else if ((m =? 4) || (m =? 6) || (m =? 9) || (m =? 11))%Z then 30
  else 31.

(** [datetime.strptime(ts, "%Y%m%d_%H%M%S")] on the fixed-width texts the
    encoder's [strftime] writes (four, two, two digits, an underscore, two,
    two, two digits); every other text is refused here. *)
Definition strptime_fixed (ts fmt : string) : result datetime :=
  if negb (String.eqb fmt "%Y%m%d_%H%M%S") then Raise ValueError
  else
    match read_digits 4 0 ts with
    | None => Raise ValueError
    | Some (y, s1) =>
    match read_digits 2 0 s1 with
    | None => Raise ValueError
    | Some (m, s2) =>
    match read_digits 2 0 s2 with
    | None => Raise ValueError
    | Some (d, s3) =>
    match s3 with
    | String "_" s4 =>
    match read_digits 2 0 s4 with
    | None => Raise ValueError
    | Some (hh, s5) =>
    match read_digits 2 0 s5 with
    | None => Raise ValueError
    | Some (mm, s6) =>
    match read_digits 2 0 s6 with
    | Some (ss, EmptyString) =>
        if ((1 <=? y) && (1 <=? m) && (m <=? 12) && (1 <=? d)
            && (d <=? days_in_month y m)
            && (hh <? 24) && (mm <? 60) && (ss <? 60))%Z
        then Ok (mk_datetime y m d hh mm ss 0)
        else Raise ValueError
    | _ => Raise ValueError
    end end end
    | _ => Raise ValueError
    end end end end.

(** Days since 1970-01-01 to year, month, day of the proleptic Gregorian
    calendar. *)
Definition civil_of_days (days : Z) : Z * Z * Z :=
  let z := (days + 719468)%Z in
  let era := (z / 146097)%Z in
  let doe := (z - era * 146097)%Z in
  let yoe := ((doe - doe / 1460 + doe / 36524 - doe / 146096) / 365)%Z in
  let doy := (doe - (365 * yoe + yoe / 4 - yoe / 100))%Z in
  let mp := ((5 * doy + 2) / 153)%Z in
  let d := (doy - (153 * mp + 2) / 5 + 1)%Z in
  let m := (if mp <? 10 then mp + 3 else mp - 9)%Z in
  let y := (yoe + era * 400 + (if m <=? 2 then 1 else 0))%Z in
  (y, m, d).

(** Rounding of a rational to the nearest integer, ties to even. *)
Definition round_half_even (q : Q) : Z :=
  let n := Qnum q in
  let d := Zpos (Qden q) in
  let f := (n / d)%Z in
  let r := (n mod d)%Z in
  if (2 * r <? d)%Z then f
  else if (d <? 2 * r)%Z then (f + 1)%Z
  else if Z.even f then f else (f + 1)%Z.

(** [datetime.utcfromtimestamp(t)]: [t] rounded to the microsecond, in the
    years 1 to 9999. *)
Definition utcfromtimestamp_civil (t : Q) : result datetime :=
  let us := round_half_even (t * inject_Z 1000000) in
  let secs := (us / 1000000)%Z in
  let days := (secs / 86400)%Z in
  let sod := (secs mod 86400)%Z in
  let '(y, m, d) := civil_of_days days in
  if ((1 <=? y) && (y <=? 9999))%Z
  then Ok (mk_datetime y m d (sod / 3600) ((sod mod 3600) / 60) (sod mod 60)
             (us mod 1000000))
  else Raise OverflowError.

Definition exn_name (e : exn) : string :=
  match e with
  | ZeroDivisionError => "division by zero"
  | ValueError => "ValueError"
  | OverflowError => "OverflowError"
  | OSError => "OSError"
  | FileNotFoundError => "FileNotFoundError"
  | PermissionError => "PermissionError"
  | TimeoutExpired => "TimeoutExpired"
  | RequestValidationError => "RequestValidationError"
  | HTTPException _ detail => detail
  end.

Definition lib : PyLib :=
  {| strptime := strptime_fixed;
     utcfromtimestamp := utcfromtimestamp_civil;
     str_exn := exn_name;
     decode_ignore := fun data => data |}.

(** A readable, deletable regular file. *)
Definition file (name : string) (size : N) (mtime : Q) : entry :=
  {| e_name := name; e_is_file := true;
     e_stat := Some {| st_size := size; st_mtime := mtime |};
     e_unlink_ok := true |}.

Definition two_digits (n : nat) : string :=
  String (ascii_of_nat (48 + n / 10))
    (String (ascii_of_nat (48 + n mod 10)) EmptyString).

(** The segment the encoder starts [2 * i] seconds after
    2024-01-01 12:00:00 UTC (epoch second 1704110400), last written two
    seconds later. *)
Definition segment (i : nat) : entry :=
  let s := (2 * i)%nat in
  file ("seg_20240101_12" ++ two_digits (s / 60) ++ two_digits (s mod 60)
        ++ ".mp3")
       4096
       (inject_Z (1704110400 + 2 * Z.of_nat i + 2)).

(** [n] consecutive segments. *)
Definition segments (n : nat) : list entry := map segment (seq 0 n).

Definition manager : FFmpegBufferManager := init_manager default_settings.

(** [small_dir] a moment later: its oldest segment has been swept and its
    second one is being rewritten and is empty. *)
Definition raced_dir : directory :=
  Some [file "seg_20240101_120002.mp3" 0 (inject_Z 1704110410);
        segment 2; segment 3; segment 4].

(** A concatenator that does not end within five seconds. *)
Definition stuck_process : process :=
  {| pid := 4246; proc_stdout := [Ok "ID3"; Ok "frames"; Ok "more"];
     proc_stderr := []; proc_wait := Raise TimeoutExpired |}.

(** An operating system on which [ffmpeg] is not installed. *)
Definition os_without_ffmpeg : os_env :=
  {| os_mktemp := Ok "/tmp/tmpk3v9.txt";
     os_popen := fun _ => Raise FileNotFoundError |}.

(** The default configuration with [SEGMENT_SECONDS=60]. *)
Definition coarse_manager : FFmpegBufferManager :=
  mk_manager 60 12 2 "ffmpeg" "" 128000.

(** A directory with a sub-directory and a stray file beside two segments. *)
Definition mixed_dir : directory :=
  Some [file "seg_20240101_120000.mp3" 4096 (inject_Z 1704110402);
        {| e_name := "seg_old.mp3"; e_is_file := false;
           e_stat := None; e_unlink_ok := false |};
        file "notes.txt" 12 (inject_Z 1704110000);
        file "seg_20240101_120002.mp3" 4096 (inject_Z 1704110404)].

(** Five segments, read nine seconds after the first one was started: the
    first three are stable, the last two are still fresh. *)
Definition small_dir : directory := Some (segments 5).
Definition small_now : Q := inject_Z (1704110400 + 9).


(** One non-empty segment last written exactly two seconds before the
    clock reading. *)
Definition edge_segment : entry :=
  file "seg_20240101_120000.mp3" 4096 (inject_Z 1704110402).
Definition edge_dir : directory := Some [edge_segment].
Definition edge_now : Q := inject_Z 1704110404.

(** Fifty segments whose ages, at [sweep_now], are spread evenly from 0 to
    20 minutes: segment [i] is [i * 1200 / 49] seconds old. *)
Definition sweep_now : Q := inject_Z (1704110400 + 1200).
Definition aged_segment (i : nat) : entry :=
  file ("seg_20240101_1200" ++ two_digits i ++ ".mp3") 4096
       (sweep_now - (Z.of_nat i * 1200 # 49)).
Definition sweep_dir : directory := Some (map aged_segment (seq 0 50)).

(** A concatenator that writes two chunks and exits with status 0. *)
Definition good_process : process :=
  {| pid := 4242; proc_stdout := [Ok "ID3"; Ok "frames"];
     proc_stderr := []; proc_wait := Ok 0%Z |}.


(** A concatenator whose output pipe fails after one chunk, and which
    exits with status 1. *)
Definition broken_process : process :=
  {| pid := 4244; proc_stdout := [Ok "ID3"; Raise OSError];
     proc_stderr := [Ok "concat: Invalid data"]; proc_wait := Ok 1%Z |}.

(** A concatenator that writes one chunk and exits with status 1. *)
Definition failing_process : process :=
  {| pid := 4245; proc_stdout := [Ok "ID3"];
     proc_stderr := [Ok "concat: Invalid data"]; proc_wait := Ok 1%Z |}.

Definition os_with (proc : process) : os_env :=
  {| os_mktemp := Ok "/tmp/tmpk3v9.txt"; os_popen := fun _ => Ok proc |}.

Definition empty_world : world :=
  {| w_tmp := []; w_spawned := []; w_killed := [] |}.

Definition generator_of (proc : process) : generator :=
  {| g_proc := proc; g_list_path := "/tmp/tmpk3v9.txt" |}.

(** The directory when it holds no segment at all. *)
Definition empty_dir : directory := Some [].

(** The default settings with [MAX_DOWNLOAD_MINUTES=10] in the
    environment. *)
Definition strict_settings : Settings :=
  {| STREAM_URL := STREAM_URL default_settings;
     BUFFER_DIR := BUFFER_DIR default_settings;
     SEGMENT_SECONDS := SEGMENT_SECONDS default_settings;
     BUFFER_MINUTES := BUFFER_MINUTES default_settings;
     CLEANUP_MARGIN_MINUTES := CLEANUP_MARGIN_MINUTES default_settings;
     MAX_DOWNLOAD_MINUTES := 10;
     FFMPEG_PATH := FFMPEG_PATH default_settings;
     AUDIO_BITRATE := AUDIO_BITRATE default_settings |}.

(** 160 segments, all of them stable at the time of the request. *)
Definition long_dir : directory := Some (segments 160).
Definition long_now : Q := inject_Z (1704110400 + 1000).

End Concrete.

(* ================================================================= *)
(** ** Predicates the properties are stated with *)

(** [a] is not after [b] in the order of the keys: what [sort] establishes
    between neighbours. *)
Definition not_after (A K : Type) (key : A -> K) (lt : K -> K -> bool)
    (a b : A) : Prop :=
  lt (key b) (key a) = false.

(** Stability as the specification words it: age at least two seconds and
    a positive size. *)
Definition stable_by_spec (now_ts : Q) (st : stat_result) : bool :=
  Qle_bool 2 (now_ts - st_mtime st) && (0 <? st_size st)%N.

(** Stability as the selector tests it: a positive size and a modification
    time strictly before [now_ts - 2]. *)
Definition stable_by_code (now_ts : Q) (st : stat_result) : bool :=
  negb (st_size st =? 0)%N && negb (Qle_bool (now_ts - 2) (st_mtime st)).

(** The entries [_iter_segment_files] lists. *)
Definition listed (e : entry) : bool := glob_seg_mp3 (e_name e) && e_is_file e.

(** The entries one sweep tick removes: listed, readable, modified strictly
    before the cutoff, and deletable. *)
Definition swept (cutoff_ts : Q) (e : entry) : bool :=
  listed e
  && match e_stat e with
     | Some st => Qlt_bool (st_mtime st) cutoff_ts
     | None => false
     end
  && e_unlink_ok e.

(** The directory without the entries named in [names]. *)
Definition without_names (names : list string) (d : directory) : directory :=
  option_map
    (filter (fun e => negb (existsb (String.eqb (e_name e)) names))) d.

(** What the sweep decides for a path: its entry is readable, older than the
    cutoff, and deletable. *)
Definition doomed (cutoff_ts : Q) (d : directory) (path : string) : bool :=
  match lookup path (entries d) with
  | Some e =>
      match e_stat e with
      | Some st => Qlt_bool (st_mtime st) cutoff_ts && e_unlink_ok e
      | None => false
      end
  | None => false
  end.

(** The names of a list are pairwise distinct. *)
Fixpoint distinctb (names : list string) : bool :=
  match names with
  | [] => true
  | x :: rest => negb (existsb (String.eqb x) rest) && distinctb rest
  end.

(** Every path of [file_list] has vanished or is empty when the streamer
    looks at it. *)
Definition all_invalid (buffer_dir : directory) (file_list : list string)
  : Prop :=
  forall p, In p file_list ->
    path_exists buffer_dir p = false
    \/ exists st, stat buffer_dir p = Ok st /\ st_size st = 0%N.

(** [c in s] *)
Fixpoint has_char (c : ascii) (s : string) : bool :=
  match s with
  | EmptyString => false
  | String a rest => Ascii.eqb a c || has_char c rest
  end.

(** [a] is not before [b] in the order of the keys. *)
Definition not_before (A K : Type) (key : A -> K) (lt : K -> K -> bool)
    (a b : A) : Prop :=
  lt (key a) (key b) = false.

(** What [_concat_stream] keeps of its input: the paths that exist, can be
    read and are not empty when it looks at them. *)
Definition usable (buffer_dir : directory) (p : string) : bool :=
  match lookup p (entries buffer_dir) with
  | Some e =>
      match e_stat e with
      | Some st => negb (st_size st =? 0)%N
      | None => false
      end
  | None => false
  end.

(** No path of [file_list] exists with a [stat] that fails. *)
Definition readable (buffer_dir : directory) (file_list : list string)
  : Prop :=
  forall p, In p file_list -> path_exists buffer_dir p = true ->
    exists st, stat buffer_dir p = Ok st.

(** The name the operating system would give the next temporary file is not
    the name of one that exists. *)
Definition fresh_tmp (os : os_env) (w : world) : Prop :=
  forall list_path, os_mktemp os = Ok list_path ->
    ~ In list_path (map fst (w_tmp w)).

(** The status line FastAPI sends for the outcome of any handler. *)
Definition status_of (A : Type) (r : result A) : Z :=
  match r with
  | Ok _ => 200
  | Raise (HTTPException status_code _) => status_code
  | Raise RequestValidationError => 422
  | Raise _ => 500
  end.

(** The number of segments the selector takes, for a positive request and a
    positive segment duration. *)
Definition taken {lib : PyLib} (self : FFmpegBufferManager) (d : directory)
    (now : Q) (minutes : Z) : nat :=
  Z.to_nat (Z.min (minutes * 60 / segment_seconds self + 1)
                  (Z.of_nat (List.length (stable_segments_of d now)))).

(** The entries one sweep tick counts as kept: listed, readable, and not
    modified before the cutoff. *)
Definition retained (cutoff_ts : Q) (e : entry) : bool :=
  listed e
  && match e_stat e with
     | Some st => negb (Qlt_bool (st_mtime st) cutoff_ts)
     | None => false
     end.

(** What the sweep counts as kept for a path. *)
Definition spared (cutoff_ts : Q) (d : directory) (path : string) : bool :=
  match lookup path (entries d) with
  | Some e =>
      match e_stat e with
      | Some st => negb (Qlt_bool (st_mtime st) cutoff_ts)
      | None => false
      end
  | None => false
  end.

(** The cutoff of a tick at [now_ts]. *)
Definition cutoff_of (self : FFmpegBufferManager) (now_ts : Q) : Q :=
  now_ts - inject_Z ((buffer_minutes self + cleanup_margin_minutes self) * 60).

(** The generator [g] with the pipes of its process as the state [st] of
    an iteration has them. *)
Definition with_pipes (g : generator) (st : gen_state) : generator :=
  {| g_proc := {| pid := pid (g_proc g);
                  proc_stdout := gs_stdout st;
                  proc_stderr := gs_stderr st;
                  proc_wait := proc_wait (g_proc g) |};
     g_list_path := g_list_path g |}.

(** The process identifiers [gen_cleanup] kills: the process of the
    generator when waiting for it fails, none otherwise. *)
Definition killed_by_cleanup (g : generator) : list Z :=
  match proc_wait (g_proc g) with
  | Ok _ => []
  | Raise _ => [pid (g_proc g)]
  end.

(** How [_gen] ends, from the way its reading loop ended and the error pipe
    of the process. *)
Definition ending_of {lib : PyLib} (loop_end : result unit) (stderr : pipe)
  : ending :=
  match loop_end with
  | Ok _ =>
      match pipe_read stderr with
      | (Ok _, _) => Exhausted
      | (Raise e, stderr') => Raised (fst (gen_except e stderr'))
      end
  | Raise e => Raised (fst (gen_except e stderr))
  end.

(* ================================================================= *)
(** * Properties *)

(** ** The sort *)

Section SortFacts.
Variables (A K : Type) (key : A -> K) (lt : K -> K -> bool).

Lemma insert_perm (x : A) (l : list A) :
  Permutation (insert key lt x l) (x :: l).
Proof.
  induction l as [|y l IH]; simpl.
  - apply Permutation_refl.
  - destruct (lt (key y) (key x)).
    + apply perm_trans with (y :: x :: l).
      * apply perm_skip, IH.
      * apply perm_swap.
    + apply Permutation_refl.
Qed.

Lemma sort_perm (l : list A) : Permutation (sort key lt l) l.
Proof.
  induction l as [|x l IH]; simpl.
  - constructor.
  - apply perm_trans with (x :: sort key lt l).
    + apply insert_perm.
    + apply perm_skip, IH.
Qed.

Lemma sort_reverse_perm (l : list A) :
  Permutation (sort_reverse key lt l) l.
Proof.
  unfold sort_reverse.
  apply perm_trans with (sort key lt (rev l)).
  - apply Permutation_sym, Permutation_rev.
  - apply perm_trans with (rev l).
    + apply sort_perm.
    + apply Permutation_sym, Permutation_rev.
Qed.

Lemma sort_length (l : list A) :
  List.length (sort key lt l) = List.length l.
Proof. apply Permutation_length, sort_perm. Qed.

Lemma sort_reverse_length (l : list A) :
  List.length (sort_reverse key lt l) = List.length l.
Proof. apply Permutation_length, sort_reverse_perm. Qed.

Hypothesis lt_asym : forall a b, lt a b = true -> lt b a = false.

Lemma insert_hd (x a : A) (l : list A) :
  not_after key lt a x -> HdRel (not_after key lt) a l ->
  HdRel (not_after key lt) a (insert key lt x l).
Proof.
  intros Hax Hal.
  destruct l as [|y l]; simpl.
  - constructor; exact Hax.
  - destruct (lt (key y) (key x)).
    + constructor. inversion Hal; assumption.
    + constructor; exact Hax.
Qed.

Lemma insert_sorted (x : A) (l : list A) :
  Sorted (not_after key lt) l -> Sorted (not_after key lt) (insert key lt x l).
Proof.
  induction 1 as [|y l Hs IH Hhd]; simpl.
  - repeat constructor.
  - destruct (lt (key y) (key x)) eqn:Hyx.
    + constructor.
      * exact IH.
      * apply insert_hd; [|exact Hhd].
        unfold not_after. apply lt_asym, Hyx.
    + constructor.
      * constructor; assumption.
      * constructor. exact Hyx.
Qed.

Lemma sort_sorted (l : list A) : Sorted (not_after key lt) (sort key lt l).
Proof.
  induction l as [|x l IH]; simpl.
  - constructor.
  - apply insert_sorted, IH.
Qed.
End SortFacts.

(** ** Lists *)

Section ListFacts.
Variables (A B : Type).

Lemma firstn_In (n : nat) (l : list A) (x : A) :
  In x (firstn n l) -> In x l.
Proof.
  intros H. rewrite <- (firstn_skipn n l). apply in_or_app. left. exact H.
Qed.

Lemma NoDup_map_firstn (f : A -> B) (n : nat) (l : list A) :
  NoDup (map f l) -> NoDup (map f (firstn n l)).
Proof.
  intros H. rewrite <- (firstn_skipn n l), map_app in H.
  eapply NoDup_app_remove_r. exact H.
Qed.

Lemma NoDup_map_filter (f : A -> B) (g : A -> bool) (l : list A) :
  NoDup (map f l) -> NoDup (map f (filter g l)).
Proof.
  induction l as [|x l IH]; simpl; intros H; [constructor|].
  inversion H as [|y ys Hnin Hnd]; subst.
  destruct (g x); simpl; [|auto].
  constructor; [|auto].
  intros Hin. apply Hnin. apply in_map_iff in Hin.
  destruct Hin as (z & Hz & Hin). apply filter_In in Hin.
  rewrite <- Hz. apply in_map. tauto.
Qed.
End ListFacts.

(** ** The order of [datetime] *)

Lemma lex_compare_antisym (a b : list Z) :
  lex_compare b a = CompOpp (lex_compare a b).
Proof.
  revert b; induction a as [|x a IH]; intros [|y b]; simpl; try reflexivity.
  rewrite (Z.compare_antisym x y).
  destruct (x ?= y)%Z; simpl; auto.
Qed.

Lemma lex_compare_eq (a b : list Z) : lex_compare a b = Eq -> a = b.
Proof.
  revert b; induction a as [|x a IH]; intros [|y b]; simpl;
    try reflexivity; try discriminate.
  destruct (x ?= y)%Z eqn:Hxy; try discriminate.
  intros H. apply Z.compare_eq in Hxy. f_equal; auto.
Qed.


Lemma lex_compare_lt_trans (a b c : list Z) :
  lex_compare a b = Lt -> lex_compare b c = Lt -> lex_compare a c = Lt.
Proof.
  revert b c; induction a as [|x a IH]; intros [|y b] [|z c]; simpl;
    try reflexivity; try discriminate.
  destruct (x ?= y)%Z eqn:Hxy; try discriminate;
    destruct (y ?= z)%Z eqn:Hyz; try discriminate; intros H1 H2.
  - apply Z.compare_eq in Hxy, Hyz. subst. rewrite Z.compare_refl.
    eapply IH; eassumption.
  - apply Z.compare_eq in Hxy. subst. rewrite Hyz. reflexivity.
  - apply Z.compare_eq in Hyz. subst. rewrite Hxy. reflexivity.
  - rewrite Z.compare_lt_iff in Hxy, Hyz.
    assert (Hxz : (x ?= z)%Z = Lt) by (apply Z.compare_lt_iff; lia).
    rewrite Hxz. reflexivity.
Qed.


Lemma datetime_ltb_asym (a b : datetime) :
  datetime_ltb a b = true -> datetime_ltb b a = false.
Proof.
  unfold datetime_ltb, datetime_compare.
  rewrite (lex_compare_antisym (datetime_fields a) (datetime_fields b)).
  destruct (lex_compare (datetime_fields a) (datetime_fields b));
    simpl; congruence.
Qed.

Lemma not_after_le (a b : datetime) :
  datetime_ltb b a = false <-> datetime_le a b.
Proof.
  unfold datetime_le, datetime_leb, datetime_ltb, datetime_compare.
  rewrite (lex_compare_antisym (datetime_fields a) (datetime_fields b)).
  destruct (lex_compare (datetime_fields a) (datetime_fields b));
    simpl; split; congruence.
Qed.

Lemma datetime_le_trans (a b c : datetime) :
  datetime_le a b -> datetime_le b c -> datetime_le a c.
Proof.
  unfold datetime_le, datetime_leb, datetime_compare.
  destruct (lex_compare (datetime_fields a) (datetime_fields b)) eqn:Hab;
    try discriminate;
    destruct (lex_compare (datetime_fields b) (datetime_fields c)) eqn:Hbc;
    try discriminate; intros _ _.
  - apply lex_compare_eq in Hab. rewrite Hab, Hbc. reflexivity.
  - apply lex_compare_eq in Hab. rewrite Hab, Hbc. reflexivity.
  - apply lex_compare_eq in Hbc. rewrite <- Hbc, Hab. reflexivity.
  - rewrite (lex_compare_lt_trans _ _ _ Hab Hbc). reflexivity.
Qed.



(** ** The pattern [seg_*.mp3] *)

Section GlobFacts.
Local Open Scope string_scope.

Lemma substring_whole (s : string) : substring 0 (String.length s) s = s.
Proof. induction s as [|a s IH]; simpl; congruence. Qed.

Lemma substring_split (s : string) :
  forall m, (m <= String.length s)%nat ->
    s = substring 0 m s ++ substring m (String.length s - m) s.
Proof.
  induction s as [|a s IH]; intros [|m] Hm; simpl in *; try lia.
  - reflexivity.
  - rewrite substring_whole. reflexivity.
  - f_equal. apply IH. lia.
Qed.

Lemma substring_append (pre suf : string) :
  substring (String.length pre) (String.length suf) (pre ++ suf) = suf.
Proof.
  induction pre as [|a pre IH]; simpl.
  - apply substring_whole.
  - exact IH.
Qed.

Lemma length_append (s1 s2 : string) :
  String.length (s1 ++ s2) = (String.length s1 + String.length s2)%nat.
Proof. induction s1 as [|a s1 IH]; simpl; congruence. Qed.

Lemma append_assoc (s1 s2 s3 : string) : (s1 ++ s2) ++ s3 = s1 ++ s2 ++ s3.
Proof. induction s1 as [|a s1 IH]; simpl; congruence. Qed.

Lemma endswith_spec (suf s : string) :
  endswith suf s = true <-> exists pre, s = pre ++ suf.
Proof.
  unfold endswith. rewrite andb_true_iff, Nat.leb_le, String.eqb_eq. split.
  - intros [Hk Hsub].
    exists (substring 0 (String.length s - String.length suf) s).
    assert (Hs := @substring_split s (String.length s - String.length suf)).
    replace (String.length s - (String.length s - String.length suf))%nat
      with (String.length suf) in Hs by lia.
    rewrite Hsub in Hs. apply Hs. lia.
  - intros [pre ->]. rewrite length_append. split; [lia|].
    replace (String.length pre + String.length suf - String.length suf)%nat
      with (String.length pre) by lia.
    apply substring_append.
Qed.

Lemma prefix_cons (a b : ascii) (s1 s2 : string) :
  prefix (String a s1) (String b s2) = true <-> a = b /\ prefix s1 s2 = true.
Proof.
  change (prefix (String a s1) (String b s2))
    with (if ascii_dec a b then prefix s1 s2 else false).
  destruct (ascii_dec a b); intuition congruence.
Qed.

(** The names [seg_*.mp3] matches are those that start with [seg_] and go
    on, after any text, with [.mp3] at their end. *)
Lemma glob_seg_mp3_spec (name : string) :
  glob_seg_mp3 name = true <-> exists mid, name = "seg_" ++ mid ++ ".mp3".
Proof.
  unfold glob_seg_mp3, startswith.
  rewrite andb_true_iff, endswith_spec. split.
  - intros [Hpre [pre ->]].
    destruct pre as [|a [|b [|c [|d mid]]]]; cbn [append] in Hpre;
      repeat (apply prefix_cons in Hpre; destruct Hpre as [? Hpre]);
      try discriminate.
    subst. exists mid. reflexivity.
  - intros [mid ->]. split.
    + cbn [append].
      repeat (apply prefix_cons; split; [reflexivity|]).
      destruct (mid ++ ".mp3"); reflexivity.
    + exists ("seg_" ++ mid). symmetry. apply append_assoc.
Qed.

End GlobFacts.

(** ** The listing and the stability filter *)

Section SelectorFacts.
Context {lib : PyLib}.

Lemma iter_segment_files_spec (d : directory) (p : string) :
  In p (_iter_segment_files d) <->
  exists e, In e (entries d) /\ e_name e = p /\ listed e = true.
Proof.
  destruct d as [es|]; simpl.
  - rewrite in_map_iff. split.
    + intros (e & Hn & Hin). apply filter_In in Hin. destruct Hin as [Hin Hl].
      exists e. auto.
    + intros (e & Hin & Hn & Hl). exists e. split; [exact Hn|].
      apply filter_In. auto.
  - split; [intros []|intros (e & [] & _)].
Qed.

(** What one path contributes to [stable_segments]. *)
Lemma collect_step_app d now c acc p :
  collect_step d now c acc p = acc ++ collect_step d now c [] p.
Proof.
  unfold collect_step.
  destruct (examine_segment d now c p) as [[seg|]|e]; simpl;
    rewrite ?app_nil_r; reflexivity.
Qed.

Lemma collect_fold d now c (ps : list string) :
  forall acc,
    fold_left (collect_step d now c) ps acc
    = acc ++ flat_map (collect_step d now c []) ps.
Proof.
  induction ps as [|p ps IH]; intros acc; simpl.
  - rewrite app_nil_r. reflexivity.
  - rewrite IH, collect_step_app, <- app_assoc. reflexivity.
Qed.

Lemma stable_segments_flat d now :
  stable_segments_of d now
  = flat_map (collect_step d now (now - 2) []) (_iter_segment_files d).
Proof. unfold stable_segments_of. rewrite collect_fold. reflexivity. Qed.

(** [examine_segment] keeps a path exactly when its [stat] succeeds, the
    file is stable as the code tests it, and a timestamp is found. *)
Lemma examine_segment_some d now p seg :
  examine_segment d now (now - 2) p = Ok (Some seg) <->
  exists st,
    stat d p = Ok st /\ stable_by_code now st = true
    /\ fst seg = p
    /\ (_timestamp_from_name p = Some (snd seg)
        \/ (_timestamp_from_name p = None
            /\ utcfromtimestamp (st_mtime st) = Ok (snd seg))).
Proof.
  unfold examine_segment, stable_by_code. split.
  - destruct (stat d p) as [st|e]; simpl; [|discriminate].
    destruct (st_size st =? 0)%N eqn:Hsz; [discriminate|].
    destruct (Qle_bool (now - 2) (st_mtime st)) eqn:Hm; [discriminate|].
    destruct (_timestamp_from_name p) as [ts|] eqn:Hts.
    + intros H; injection H as <-. exists st. rewrite Hsz, Hm. simpl. auto.
    + destruct (utcfromtimestamp (st_mtime st)) as [ts|e] eqn:Hu; simpl;
        [|discriminate].
      intros H; injection H as <-. exists st. rewrite Hsz, Hm. simpl.
      repeat split; auto.
  - intros (st & Hst & Hcode & Hp & Hts). rewrite Hst. simpl.
    apply andb_true_iff in Hcode. destruct Hcode as [Hsz Hm].
    apply negb_true_iff in Hsz, Hm. rewrite Hsz, Hm.
    destruct seg as [q ts]; simpl in *. subst q.
    destruct Hts as [Hts|[Hts Hu]]; rewrite Hts; [reflexivity|].
    rewrite Hu. reflexivity.
Qed.

Lemma in_stable_segments d now seg :
  In seg (stable_segments_of d now) <->
  In (fst seg) (_iter_segment_files d)
  /\ examine_segment d now (now - 2) (fst seg) = Ok (Some seg).
Proof.
  rewrite stable_segments_flat, in_flat_map. unfold collect_step. split.
  - intros (p & Hp & Hin).
    destruct (examine_segment d now (now - 2) p) as [[s|]|e] eqn:E;
      simpl in Hin; try contradiction.
    destruct Hin as [->|[]].
    assert (Hf : fst seg = p).
    { apply examine_segment_some in E. destruct E as (st & _ & _ & Hf & _).
      exact Hf. }
    rewrite Hf. auto.
  - intros [Hp E]. exists (fst seg). split; [exact Hp|].
    rewrite E. simpl. auto.
Qed.

(** The paths of [stable_segments] are a sub-list of the listing. *)
Lemma stable_paths_filter d now :
  map fst (stable_segments_of d now)
  = filter (fun p => match examine_segment d now (now - 2) p with
                     | Ok (Some _) => true
                     | _ => false
                     end) (_iter_segment_files d).
Proof.
  rewrite stable_segments_flat.
  induction (_iter_segment_files d) as [|p ps IH]; simpl; [reflexivity|].
  rewrite map_app, IH. unfold collect_step at 1.
  destruct (examine_segment d now (now - 2) p) as [[seg|]|e] eqn:E;
    simpl; try reflexivity.
  apply examine_segment_some in E. destruct E as (st & _ & _ & Hf & _).
  rewrite Hf. reflexivity.
Qed.

End SelectorFacts.

(** ** The selection *)

Section SelectionFacts.
Context {lib : PyLib}.

Lemma slice_to_firstn (A : Type) (k : Z) (l : list A) :
  exists n, slice_to k l = firstn n l.
Proof. unfold slice_to. destruct (k <? 0)%Z; eexists; reflexivity. Qed.

(** On a positive request over a non-empty stable list, [selected] is the
    sorted slice. *)
Lemma selected_segments_nonempty self d now minutes :
  (0 < minutes)%Z -> stable_segments_of d now <> [] ->
  selected_segments self d now minutes =
  (segments_needed <- segments_needed_for self minutes ;;
   let newest_first :=
     sort_reverse (@snd string datetime) datetime_ltb
       (stable_segments_of d now) in
   Ok (sort (@snd string datetime) datetime_ltb
         (slice_to
            (Z.min segments_needed (Z.of_nat (List.length newest_first)))
            newest_first))).
Proof.
  intros Hm Hne. unfold selected_segments.
  destruct (Z.leb_spec minutes 0) as [Hle|_]; [lia|].
  destruct (stable_segments_of d now) as [|s ss]; [congruence|].
  reflexivity.
Qed.

(** Whatever is selected is a rearrangement of a prefix of the stable
    segments, newest first. *)
Lemma selected_segments_prefix self d now minutes sel :
  selected_segments self d now minutes = Ok sel ->
  exists n,
    Permutation sel
      (firstn n (sort_reverse (@snd string datetime) datetime_ltb
                   (stable_segments_of d now))).
Proof.
  unfold selected_segments.
  destruct (minutes <=? 0)%Z.
  { intros H; injection H as <-. exists 0%nat. constructor. }
  destruct (stable_segments_of d now) as [|s ss] eqn:Hst.
  { intros H; injection H as <-. exists 0%nat. constructor. }
  destruct (segments_needed_for self minutes) as [needed|e]; simpl;
    [|discriminate].
  intros H; injection H as <-.
  match goal with
  | |- context [slice_to ?k ?l] => destruct (slice_to_firstn k l) as [n Hn]
  end.
  exists n. rewrite Hn. apply sort_perm.
Qed.

Lemma selected_segments_incl self d now minutes sel :
  selected_segments self d now minutes = Ok sel ->
  incl sel (stable_segments_of d now).
Proof.
  intros H seg Hin.
  destruct (selected_segments_prefix _ _ _ _ H) as [n Hp].
  apply (Permutation_in _ Hp) in Hin.
  apply firstn_In in Hin.
  apply (Permutation_in _ (sort_reverse_perm _ _ _)) in Hin.
  exact Hin.
Qed.

Lemma recent_segments_inv self d now minutes l :
  recent_segments_for_minutes self d now minutes = Ok l ->
  exists sel,
    selected_segments self d now minutes = Ok sel /\ l = map fst sel.
Proof.
  unfold recent_segments_for_minutes.
  destruct (selected_segments self d now minutes) as [sel|e]; simpl;
    [|discriminate].
  intros H; injection H as <-. exists sel. auto.
Qed.


Lemma segments_needed_positive self minutes :
  (0 < minutes)%Z -> (0 < segment_seconds self)%Z ->
  segments_needed_for self minutes
  = Ok (minutes * 60 / segment_seconds self + 1)%Z.
Proof.
  intros Hm Hs. unfold segments_needed_for, int_truediv.
  destruct (Z.eqb_spec (segment_seconds self) 0) as [H0|_]; [lia|].
  simpl. rewrite Z.quot_div_nonneg by lia. reflexivity.
Qed.

Lemma selected_segments_count self d now minutes :
  (0 < minutes)%Z -> (0 < segment_seconds self)%Z ->
  exists sel,
    selected_segments self d now minutes = Ok sel
    /\ Z.of_nat (List.length sel)
       = Z.min (minutes * 60 / segment_seconds self + 1)
               (Z.of_nat (List.length (stable_segments_of d now))).
Proof.
  intros Hm Hs.
  assert (Hq : (0 <= minutes * 60 / segment_seconds self)%Z).
  { apply Z.div_pos; lia. }
  destruct (stable_segments_of d now) as [|s ss] eqn:Hst.
  - exists []. unfold selected_segments. rewrite Hst.
    destruct (minutes <=? 0)%Z; (split; [reflexivity|simpl; lia]).
  - rewrite selected_segments_nonempty by (try lia; congruence).
    rewrite segments_needed_positive by assumption. simpl bind.
    eexists. split; [reflexivity|].
    rewrite sort_length, sort_reverse_length, Hst. unfold slice_to.
    match goal with
    | |- context [(?k <? 0)%Z] => destruct (Z.ltb_spec k 0) as [Hneg|Hpos]
    end.
    + simpl List.length in Hneg. lia.
    + rewrite length_firstn, sort_reverse_length. lia.
Qed.

End SelectionFacts.



Section SelectionOrder.
Context {lib : PyLib}.

Lemma stable_paths_NoDup d now :
  NoDup (map e_name (entries d)) ->
  NoDup (map fst (stable_segments_of d now)).
Proof.
  intros H. rewrite stable_paths_filter. apply NoDup_filter.
  destruct d as [es|]; simpl; [|constructor].
  apply NoDup_map_filter. exact H.
Qed.

(** A property of the projections of the stable segments that survives
    rearrangement and truncation holds of the selected ones. *)
Lemma selected_NoDup (B : Type) (f : string * datetime -> B)
    self d now minutes sel :
  selected_segments self d now minutes = Ok sel ->
  NoDup (map f (stable_segments_of d now)) -> NoDup (map f sel).
Proof.
  intros Hsel Hnd.
  destruct (selected_segments_prefix _ _ _ _ Hsel) as [n Hp].
  apply (Permutation_NoDup (Permutation_map f (Permutation_sym Hp))).
  apply NoDup_map_firstn.
  apply (Permutation_NoDup
           (Permutation_map f
              (Permutation_sym (sort_reverse_perm _ _ _)))).
  exact Hnd.
Qed.




End SelectionOrder.



(** C10.  Every path the selector returns is in the listing taken by
    [_iter_segment_files] at the start of the call: it names a regular file
    of the buffer directory that matches [seg_*.mp3]; and, the names of a
    directory being distinct, no path is returned twice. *)
Theorem select_within_listing (lib : PyLib) (self : FFmpegBufferManager)
    (d : directory) (now : Q) (minutes : Z) (l : list string) :
  recent_segments_for_minutes self d now minutes = Ok l ->
  (forall p, In p l ->
     In p (_iter_segment_files d)
     /\ (exists e, In e (entries d) /\ e_name e = p /\ e_is_file e = true)
     /\ exists mid, p = ("seg_" ++ mid ++ ".mp3")%string)
  /\ (NoDup (map e_name (entries d)) -> NoDup l).
Proof.
  intros Hl.
  destruct (recent_segments_inv _ _ _ _ Hl) as (sel & Hsel & ->). split.
  - intros p Hp. apply in_map_iff in Hp. destruct Hp as (seg & <- & Hin).
    apply (selected_segments_incl _ _ _ _ Hsel) in Hin.
    apply in_stable_segments in Hin. destruct Hin as [Hlist _].
    split; [exact Hlist|].
    apply iter_segment_files_spec in Hlist.
    destruct Hlist as (e & Hin & Hn & Hlisted).
    unfold listed in Hlisted. apply andb_true_iff in Hlisted.
    rewrite Hn in Hlisted. destruct Hlisted as [Hglob Hfile]. split.
    + exists e. auto.
    + apply glob_seg_mp3_spec. exact Hglob.
  - intros Hnd. eapply selected_NoDup; [exact Hsel|].
    apply stable_paths_NoDup. exact Hnd.
Qed.

(** The three paths returned for [small_dir] are distinct. *)
Lemma select_within_listing_witness :
  NoDup ["seg_20240101_120000.mp3"; "seg_20240101_120002.mp3";
         "seg_20240101_120004.mp3"]%string.
Proof.
  apply (proj2 (select_within_listing Concrete.lib Concrete.manager
                  Concrete.small_dir Concrete.small_now 1 (l := _) eq_refl)).
  vm_compute.
  repeat (constructor; [simpl; intuition discriminate|]).
  constructor.
Defined.




(** C4, as the specification states it, fails at the boundary: a non-empty
    segment whose age is exactly two seconds is stable in the specification's
    words, and the selector's filter discards it. *)
Lemma stability_boundary_counterexample :
  stat Concrete.edge_dir "seg_20240101_120000.mp3"
  = Ok {| st_size := 4096; st_mtime := inject_Z 1704110402 |}
  /\ (Concrete.edge_now - inject_Z 1704110402 == 2)%Q
  /\ stable_by_spec Concrete.edge_now
       {| st_size := 4096; st_mtime := inject_Z 1704110402 |} = true
  /\ _iter_segment_files Concrete.edge_dir = ["seg_20240101_120000.mp3"]%string
  /\ stable_segments_of (lib := Concrete.lib) Concrete.edge_dir
       Concrete.edge_now = [].
Proof. repeat split. Qed.

(** C4, amended.  The selector's filter keeps a listed segment exactly when
    its [stat] succeeds, its size is positive, its age is strictly above two
    seconds (its modification time is strictly before [now - 2]) and a
    timestamp is found for it, in its name or else from its modification
    time; a segment whose age is two seconds or less is discarded. *)
Theorem stability_filter (lib : PyLib) (d : directory) (now : Q) (p : string) :
  (In p (map fst (stable_segments_of d now)) <->
   In p (_iter_segment_files d)
   /\ exists st,
        stat d p = Ok st
        /\ (0 < st_size st)%N
        /\ (2 < now - st_mtime st)%Q
        /\ (_timestamp_from_name p <> None
            \/ exists ts, utcfromtimestamp (st_mtime st) = Ok ts))
  /\ (forall st,
        stat d p = Ok st -> (now - st_mtime st <= 2)%Q ->
        ~ In p (map fst (stable_segments_of d now))).
Proof.
  assert (Hcode : forall st,
             stable_by_code now st = true <->
             (0 < st_size st)%N /\ (2 < now - st_mtime st)%Q).
  { intros st. unfold stable_by_code.
    rewrite andb_true_iff, !negb_true_iff, N.eqb_neq.
    rewrite <- not_true_iff_false, Qle_bool_iff. split.
    - intros [Hsz Hm]. split; [lia|].
      destruct (Qlt_le_dec 2 (now - st_mtime st)) as [H|H]; [exact H|].
      exfalso. apply Hm. lra.
    - intros [Hsz Hm]. split; [lia|]. intros H. lra. }
  assert (Hin : forall q,
             In q (map fst (stable_segments_of d now)) <->
             In q (_iter_segment_files d)
             /\ exists seg, fst seg = q
                  /\ examine_segment d now (now - 2) q = Ok (Some seg)).
  { intros q. rewrite in_map_iff. split.
    - intros (seg & <- & Hs). apply in_stable_segments in Hs.
      destruct Hs as [Hl Hex]. split; [exact Hl|]. exists seg. auto.
    - intros (Hl & seg & <- & Hex). exists seg. split; [reflexivity|].
      apply in_stable_segments. auto. }
  split.
  - rewrite Hin. split.
    + intros (Hl & seg & _ & Hex). split; [exact Hl|].
      apply examine_segment_some in Hex.
      destruct Hex as (st & Hst & Hc & _ & Hts).
      exists st. apply Hcode in Hc. destruct Hc as [Hsz Hm].
      repeat split; try assumption.
      destruct Hts as [Hts|[_ Hu]].
      * left. congruence.
      * right. eexists. exact Hu.
    + intros (Hl & st & Hst & Hsz & Hm & Hts). split; [exact Hl|].
      destruct (_timestamp_from_name p) as [ts|] eqn:Hn.
      * exists (p, ts). split; [reflexivity|].
        apply examine_segment_some. exists st.
        repeat split; [exact Hst|apply Hcode; auto|]. left. exact Hn.
      * destruct Hts as [Hts|[ts Hu]]; [congruence|].
        exists (p, ts). split; [reflexivity|].
        apply examine_segment_some. exists st.
        repeat split; [exact Hst|apply Hcode; auto|]. right. auto.
  - intros st Hst Hage Hp. apply Hin in Hp.
    destruct Hp as (_ & seg & _ & Hex).
    apply examine_segment_some in Hex.
    destruct Hex as (st' & Hst' & Hc & _).
    rewrite Hst in Hst'. injection Hst' as <-.
    apply Hcode in Hc. lra.
Qed.

(** The segment of [edge_dir], two seconds old, is not kept. *)
Lemma stability_filter_witness :
  ~ In "seg_20240101_120000.mp3"%string
      (map fst (stable_segments_of (lib := Concrete.lib) Concrete.edge_dir
                  Concrete.edge_now)).
Proof.
  apply (proj2 (stability_filter Concrete.lib Concrete.edge_dir
                  Concrete.edge_now "seg_20240101_120000.mp3")
           {| st_size := 4096; st_mtime := inject_Z 1704110402 |}).
  - reflexivity.
  - vm_compute. discriminate.
Defined.

(** ** The retention sweep *)

Section SweepFacts.

Lemma distinctb_NoDup (names : list string) :
  distinctb names = true -> NoDup names.
Proof.
  induction names as [|x rest IH]; simpl; intros H; constructor.
  - apply andb_true_iff in H. destruct H as [H _].
    apply negb_true_iff in H. intros Hin.
    assert (Hex : existsb (String.eqb x) rest = true).
    { apply existsb_exists. exists x. split; [exact Hin|].
      apply String.eqb_refl. }
    congruence.
  - apply IH. apply andb_true_iff in H. tauto.
Qed.

Lemma existsb_eqb_In (p : string) (names : list string) :
  existsb (String.eqb p) names = true <-> In p names.
Proof.
  rewrite existsb_exists. split.
  - intros (q & Hin & Heq). apply String.eqb_eq in Heq. subst. exact Hin.
  - intros Hin. exists p. split; [exact Hin|apply String.eqb_refl].
Qed.

Lemma lookup_name (p : string) (es : list entry) (e : entry) :
  lookup p es = Some e -> In e es /\ e_name e = p.
Proof.
  induction es as [|x es IH]; simpl; [discriminate|].
  destruct (String.eqb_spec (e_name x) p) as [Heq|Hne].
  - intros H; injection H as <-. auto.
  - intros H. destruct (IH H). auto.
Qed.

Lemma lookup_NoDup (es : list entry) (e : entry) :
  NoDup (map e_name es) -> In e es -> lookup (e_name e) es = Some e.
Proof.
  induction es as [|x es IH]; simpl; intros Hnd Hin; [contradiction|].
  inversion Hnd as [|n ns Hnin Hnd']; subst.
  destruct Hin as [->|Hin].
  - rewrite String.eqb_refl. reflexivity.
  - destruct (String.eqb_spec (e_name x) (e_name e)) as [Heq|Hne].
    + exfalso. apply Hnin. rewrite Heq. apply in_map. exact Hin.
    + apply IH; assumption.
Qed.

Lemma lookup_without (p : string) (names : list string) (es : list entry) :
  lookup p (filter (fun e => negb (existsb (String.eqb (e_name e)) names)) es)
  = if existsb (String.eqb p) names then None else lookup p es.
Proof.
  induction es as [|x es IH]; simpl.
  - destruct (existsb (String.eqb p) names); reflexivity.
  - destruct (String.eqb_spec (e_name x) p) as [Heq|Hne].
    + rewrite Heq.
      destruct (existsb (String.eqb p) names) eqn:Hex; simpl.
      * exact IH.
      * rewrite Heq, String.eqb_refl. reflexivity.
    + destruct (existsb (String.eqb (e_name x)) names); simpl.
      * exact IH.
      * destruct (String.eqb_spec (e_name x) p); [contradiction|exact IH].
Qed.

Lemma without_cons (p : string) (names : list string) (d : directory) :
  option_map (filter (fun e' => negb (String.eqb (e_name e') p)))
    (without_names names d)
  = without_names (p :: names) d.
Proof.
  destruct d as [es|]; simpl; [|reflexivity]. f_equal.
  induction es as [|x es IH]; simpl; [reflexivity|].
  destruct (String.eqb (e_name x) p) eqn:Hp; simpl.
  - destruct (existsb (String.eqb (e_name x)) names); simpl;
      rewrite ?Hp; simpl; exact IH.
  - destruct (existsb (String.eqb (e_name x)) names); simpl;
      rewrite ?Hp; simpl; rewrite IH; reflexivity.
Qed.

Lemma without_nil (d : directory) : without_names [] d = d.
Proof.
  destruct d as [es|]; simpl; [|reflexivity]. f_equal.
  induction es as [|x es IH]; simpl; congruence.
Qed.

Lemma entries_without (names : list string) (d : directory) (e : entry) :
  In e (entries (without_names names d)) <->
  In e (entries d) /\ ~ In (e_name e) names.
Proof.
  destruct d as [es|]; simpl; [|tauto].
  rewrite filter_In, negb_true_iff, <- not_true_iff_false, existsb_eqb_In.
  tauto.
Qed.

(** One iteration of the sweep removes the path exactly when it is
    doomed, whatever happened to the paths before it. *)
Lemma sweep_file_dir (c : Q) (d0 : directory) (names : list string)
    (s : sweep_state) (p : string) :
  sw_dir s = without_names names d0 ->
  sw_dir (sweep_file c s p)
  = without_names
      (if doomed c d0 p && negb (existsb (String.eqb p) names)
       then p :: names else names) d0.
Proof.
  intros Hs. unfold sweep_file, stat, unlink, doomed. rewrite Hs.
  assert (Hl : lookup p (entries (without_names names d0))
               = if existsb (String.eqb p) names then None
                 else lookup p (entries d0)).
  { destruct d0 as [es|]; simpl.
    - apply lookup_without.
    - destruct (existsb (String.eqb p) names); reflexivity. }
  rewrite Hl.
  destruct (existsb (String.eqb p) names); simpl.
  { rewrite andb_false_r. first [reflexivity|exact Hs]. }
  rewrite andb_true_r.
  destruct (lookup p (entries d0)) as [e|]; simpl;
    [|first [reflexivity|exact Hs]].
  destruct (e_stat e) as [st|]; simpl; [|first [reflexivity|exact Hs]].
  destruct (Qlt_bool (st_mtime st) c); simpl; [|first [reflexivity|exact Hs]].
  destruct (e_unlink_ok e); simpl; [|first [reflexivity|exact Hs]].
  apply without_cons.
Qed.

Lemma sweep_fold_dir (c : Q) (d0 : directory) (ps : list string) :
  forall (s : sweep_state) (names : list string),
    sw_dir s = without_names names d0 ->
    exists names',
      sw_dir (fold_left (sweep_file c) ps s) = without_names names' d0
      /\ forall q, In q names' <->
                   In q names \/ (In q ps /\ doomed c d0 q = true).
Proof.
  induction ps as [|p ps IH]; intros s names Hs; simpl.
  - exists names. split; [exact Hs|]. tauto.
  - destruct (IH _ _ (sweep_file_dir c d0 names s p Hs))
      as (names' & Hdir & Hin).
    exists names'. split; [exact Hdir|].
    intros q. rewrite Hin. clear Hin Hdir.
    destruct (doomed c d0 p) eqn:Hd; simpl.
    + destruct (existsb (String.eqb p) names) eqn:Hex; simpl.
      * apply existsb_eqb_In in Hex.
        split; [tauto|]. intros [H|[[<-|H] Hq]]; tauto.
      * split.
        -- intros [[<-|H]|H]; tauto.
        -- intros [H|[[<-|H] Hq]]; tauto.
    + split; [tauto|].
      intros [H|[[<-|H] Hq]]; [tauto|congruence|tauto].
Qed.

Lemma swept_doomed (c : Q) (d : directory) (e : entry) :
  NoDup (map e_name (entries d)) -> In e (entries d) ->
  swept c e = true <->
  In (e_name e) (_iter_segment_files d) /\ doomed c d (e_name e) = true.
Proof.
  intros Hnd Hin. unfold swept, doomed.
  rewrite (lookup_NoDup _ _ Hnd Hin), iter_segment_files_spec.
  rewrite !andb_true_iff. split.
  - intros [[Hl Hold] Hu]. split.
    + exists e. auto.
    + destruct (e_stat e); [|discriminate]. rewrite Hold, Hu. reflexivity.
  - intros [(e' & Hin' & Hn & Hl) Hd].
    assert (He : e' = e).
    { pose proof (lookup_NoDup _ _ Hnd Hin') as H1.
      rewrite Hn, (lookup_NoDup _ _ Hnd Hin) in H1. congruence. }
    subst e'. destruct (e_stat e); [|discriminate].
    apply andb_true_iff in Hd. tauto.
Qed.

(** After one tick the directory holds exactly the entries it held that
    the sweep does not take. *)
Lemma cleanup_entries (self : FFmpegBufferManager) (d : directory) (now : Q)
    (e : entry) :
  NoDup (map e_name (entries d)) ->
  In e (entries (sw_dir (_cleanup_old_segments self d now))) <->
  In e (entries d)
  /\ swept (now - inject_Z ((buffer_minutes self
                             + cleanup_margin_minutes self) * 60)) e = false.
Proof.
  intros Hnd. unfold _cleanup_old_segments.
  match goal with
  | |- context [fold_left (sweep_file ?c) ?ps ?s] =>
      destruct (@sweep_fold_dir c d ps s [])
        as (names' & Hdir & Hnames)
  end.
  { simpl. symmetry. apply without_nil. }
  rewrite Hdir, entries_without, Hnames. simpl. split.
  - intros [Hin Hno]. split; [exact Hin|].
    apply not_true_iff_false. intros Hsw.
    apply (swept_doomed _ _ _ Hnd Hin) in Hsw. tauto.
  - intros [Hin Hsw]. split; [exact Hin|].
    intros [[]|Hd]. apply (swept_doomed _ _ _ Hnd Hin) in Hd. congruence.
Qed.

End SweepFacts.

(** C5.  One sweep tick at the clock reading [now], on a directory whose
    names are distinct, removes exactly the listed segments whose [stat]
    succeeds, whose modification time is strictly before
    [now - (buffer_minutes + cleanup_margin_minutes) * 60] and whose
    [unlink] succeeds, and keeps every other entry: a file whose [stat] or
    [unlink] fails stays and changes nothing for the others.  With a
    retention of 12 minutes and a margin of 2, a readable, deletable segment
    remains exactly when it is not older than 14 minutes. *)
Theorem sweep_tick (self : FFmpegBufferManager) (d : directory) (now : Q) :
  NoDup (map e_name (entries d)) ->
  let cutoff_ts :=
    now - inject_Z ((buffer_minutes self + cleanup_margin_minutes self) * 60) in
  let after := sw_dir (_cleanup_old_segments self d now) in
  (forall e, In e (entries after) <->
             In e (entries d) /\ swept cutoff_ts e = false)
  /\ (forall e st,
        In e (entries d) -> listed e = true -> e_stat e = Some st ->
        e_unlink_ok e = true ->
        (st_mtime st < cutoff_ts)%Q -> ~ In e (entries after))
  /\ (forall e,
        In e (entries d) ->
        (listed e = false \/ e_stat e = None \/ e_unlink_ok e = false
         \/ exists st, e_stat e = Some st /\ (cutoff_ts <= st_mtime st)%Q) ->
        In e (entries after))
  /\ (buffer_minutes self = 12%Z -> cleanup_margin_minutes self = 2%Z ->
      forall e st,
        In e (entries d) -> listed e = true -> e_stat e = Some st ->
        e_unlink_ok e = true ->
        (In e (entries after) <-> ~ (14 * 60 < now - st_mtime st)%Q)).
Proof.
  intros Hnd cutoff_ts after.
  assert (Hmain : forall e, In e (entries after) <->
                            In e (entries d) /\ swept cutoff_ts e = false).
  { intros e. apply cleanup_entries. exact Hnd. }
  assert (Hold : forall st, Qlt_bool (st_mtime st) cutoff_ts = true <->
                            (st_mtime st < cutoff_ts)%Q).
  { intros st. unfold Qlt_bool.
    rewrite negb_true_iff, <- not_true_iff_false, Qle_bool_iff. split.
    - intros H. destruct (Qlt_le_dec (st_mtime st) cutoff_ts); tauto.
    - intros H1 H2. lra. }
  split; [exact Hmain|]. split; [|split].
  - intros e st Hin Hl Hst Hu Hlt Hafter.
    apply Hmain in Hafter. destruct Hafter as [_ Hsw].
    unfold swept in Hsw. rewrite Hl, Hst, Hu in Hsw.
    apply Hold in Hlt. rewrite Hlt in Hsw. discriminate.
  - intros e Hin Hwhy. apply Hmain. split; [exact Hin|].
    unfold swept.
    destruct Hwhy as [Hl|[Hst|[Hu|(st & Hst & Hle)]]].
    + rewrite Hl. reflexivity.
    + rewrite Hst, andb_false_r. reflexivity.
    + rewrite Hu, andb_false_r. reflexivity.
    + rewrite Hst.
      destruct (Qlt_bool (st_mtime st) cutoff_ts) eqn:Hq.
      * apply Hold in Hq. lra.
      * rewrite andb_false_r. reflexivity.
  - intros H12 H2 e st Hin Hl Hst Hu.
    assert (Hc : (cutoff_ts == now - 14 * 60)%Q).
    { unfold cutoff_ts. rewrite H12, H2. reflexivity. }
    rewrite Hmain. unfold swept. rewrite Hl, Hst, Hu. simpl.
    rewrite andb_true_r. split.
    + intros [_ Hq] Hage.
      assert (Hlt : Qlt_bool (st_mtime st) cutoff_ts = true).
      { apply Hold. lra. }
      congruence.
    + intros Hage. split; [exact Hin|].
      apply not_true_iff_false. intros Hq. apply Hold in Hq.
      apply Hage. lra.
Qed.

(** With the default retention, the segment of [sweep_dir] that is
    35 * 1200 / 49 seconds old (a little over 14 minutes) is gone after one
    tick. *)
Lemma sweep_tick_witness :
  ~ In (Concrete.aged_segment 35)
      (entries (sw_dir (_cleanup_old_segments Concrete.manager
                          Concrete.sweep_dir Concrete.sweep_now))).
Proof.
  intros Hin.
  assert (Hnd : NoDup (map e_name (entries Concrete.sweep_dir))).
  { apply distinctb_NoDup. vm_compute. reflexivity. }
  pose proof (sweep_tick Concrete.manager Concrete.sweep_dir
                Concrete.sweep_now Hnd) as H.
  cbv zeta in H. destruct H as (_ & Hdel & _).
  refine (Hdel (Concrete.aged_segment 35)
            {| st_size := 4096;
               st_mtime := Concrete.sweep_now - (Z.of_nat 35 * 1200 # 49) |}
            _ _ _ _ _ Hin).
  - vm_compute. do 35 right. left. reflexivity.
  - vm_compute. reflexivity.
  - reflexivity.
  - reflexivity.
  - vm_compute. reflexivity.
Defined.

(** One tick over [sweep_dir]: of the fifty segments aged 0 to 20 minutes,
    the thirty-five that are at most 14 minutes old remain, the fifteen older
    ones are deleted, and the counters say so. *)
Example sweep_scenario :
  let s := _cleanup_old_segments Concrete.manager Concrete.sweep_dir
             Concrete.sweep_now in
  entries (sw_dir s) = map Concrete.aged_segment (seq 0 35)
  /\ deleted_count s = 15%Z /\ kept_count s = 35%Z.
Proof. vm_compute. repeat split. Qed.

(** ** The download endpoint and the concatenation streamer *)

Section StreamFacts.
Context {lib : PyLib}.

Lemma valid_files_all_invalid (d : directory) (file_list : list string) :
  all_invalid d file_list -> valid_files_of d file_list = Ok [].
Proof.
  induction file_list as [|p rest IH]; intros Hall; simpl; [reflexivity|].
  assert (Hrest : valid_files_of d rest = Ok []).
  { apply IH. intros q Hq. apply Hall. right. exact Hq. }
  destruct (Hall p (or_introl eq_refl)) as [Hgone|(st & Hst & Hsz)].
  - rewrite Hgone. simpl. exact Hrest.
  - destruct (path_exists d p); simpl; [|exact Hrest].
    rewrite Hst. simpl. rewrite Hsz. simpl. exact Hrest.
Qed.

(** The reading loop yields the non-empty chunks in front of it and goes
    on with what follows them. *)
Lemma read_loop_chunks (chunks : list string) (tail : pipe) :
  Forall (fun c => c <> EmptyString) chunks ->
  forall n,
    exists m,
      read_loop (map Ok chunks ++ tail) n
      = (chunks ++ fst (fst (read_loop tail m)),
         snd (fst (read_loop tail m)),
         snd (read_loop tail m)).
Proof.
  induction 1 as [|c chunks Hc _ IH]; intros n; simpl.
  - exists n. destruct (read_loop tail n) as [[cs k] r]. reflexivity.
  - destruct c as [|a c']; [congruence|].
    destruct (IH (n + Z.of_nat (String.length (String a c')))%Z) as [m Hm].
    exists m. rewrite Hm. reflexivity.
Qed.

End StreamFacts.

(** C6.  When the selector returns an empty list for an accepted request,
    [download] raises [HTTPException] with status 503 and the detail
    ["Buffer not ready yet; please try again shortly"]; the status is not
    the 500 of an internal error, and the world is left as it was: no
    manifest is written and no concatenator is started, whatever the
    operating system and the directory would have answered. *)
Theorem download_not_ready (lib : PyLib) (settings : Settings)
    (manager : FFmpegBufferManager) (os : os_env) (dir_listing : directory)
    (now : Q) (dir_use : directory) (w : world) (p : query_param)
    (minutes : Z) :
  query_minutes p = Ok minutes ->
  recent_segments_for_minutes manager dir_listing now minutes = Ok [] ->
  let outcome := download settings manager os dir_listing now dir_use w p in
  outcome
  = (w, Raise (HTTPException 503
                 "Buffer not ready yet; please try again shortly"))
  /\ http_status (snd outcome) = 503%Z
  /\ http_status (snd outcome) <> 500%Z
  /\ w_spawned (fst outcome) = w_spawned w
  /\ w_tmp (fst outcome) = w_tmp w
  /\ forall os' dir_use',
       download settings manager os' dir_listing now dir_use' w p = outcome.
Proof.
  intros Hq Hsel outcome.
  assert (H : forall os' dir_use',
             download settings manager os' dir_listing now dir_use' w p
             = (w, Raise (HTTPException 503
                            "Buffer not ready yet; please try again shortly"))).
  { intros os' dir_use'. unfold download. rewrite Hq, Hsel. reflexivity. }
  unfold outcome. rewrite !H. simpl.
  repeat split; try reflexivity; try discriminate. exact H.
Qed.

(** A request for two minutes when the only segment is still fresh. *)
Lemma download_not_ready_witness :
  http_status
    (snd (download (lib := Concrete.lib) default_settings Concrete.manager
            (Concrete.os_with Concrete.good_process) Concrete.edge_dir
            Concrete.edge_now Concrete.edge_dir Concrete.empty_world
            (IntValue 2)))
  = 503%Z.
Proof.
  refine (proj1 (proj2 (download_not_ready Concrete.lib default_settings
                          Concrete.manager
                          (Concrete.os_with Concrete.good_process)
                          Concrete.edge_dir Concrete.edge_now
                          Concrete.edge_dir Concrete.empty_world
                          (IntValue 2) (minutes := 2) _ _))).
  - reflexivity.
  - vm_compute. reflexivity.
Defined.




(** C8, as the specification states it, fails: after the chunk ["ID3"] has
    been delivered, a failure of the next read reaches the consumer of the
    stream as an [HTTPException] with status 500. *)
Lemma read_failure_after_bytes_counterexample :
  snd (run_gen (lib := Concrete.lib)
         (Concrete.generator_of Concrete.broken_process) Concrete.empty_world)
  = {| delivered := ["ID3"]%string;
       ended := Raised (HTTPException 500
                  "FFmpeg read failed: OSError. stderr: concat: Invalid data")
    |}.
Proof. reflexivity. Qed.

(** C8, amended.  Let the concatenator write the non-empty chunks [chunks].
    If a read then fails — the next read of its output, or the read of its
    error pipe after the end of its output — the consumer receives the
    chunks and then an [HTTPException] with status 500.  If its output then
    ends and its error pipe can be read, the consumer receives the chunks
    and a normal end, whatever [proc.wait] returns or raises: the exit
    status is logged and never raised. *)
Theorem gen_delivery (lib : PyLib) (g : generator) (w : world)
    (chunks : list string) :
  Forall (fun c => c <> EmptyString) chunks ->
  let at_end (tail : pipe) :=
    tail = [] \/ exists rest, tail = Ok EmptyString :: rest in
  (forall e rest,
     proc_stdout (g_proc g) = map Ok chunks ++ Raise e :: rest ->
     exists detail,
       snd (run_gen g w)
       = {| delivered := chunks;
            ended := Raised (HTTPException 500 detail) |})
  /\ (forall tail e rest,
        proc_stdout (g_proc g) = map Ok chunks ++ tail -> at_end tail ->
        proc_stderr (g_proc g) = Raise e :: rest ->
        exists detail,
          snd (run_gen g w)
          = {| delivered := chunks;
               ended := Raised (HTTPException 500 detail) |})
  /\ (forall tail,
        proc_stdout (g_proc g) = map Ok chunks ++ tail -> at_end tail ->
        (proc_stderr (g_proc g) = []
         \/ exists data rest, proc_stderr (g_proc g) = Ok data :: rest) ->
        snd (run_gen g w) = {| delivered := chunks; ended := Exhausted |}).
Proof.
  intros Hne at_end.
  assert (Hend : forall tail n,
             at_end tail -> read_loop tail n = ([], n, Ok tt)).
  { intros tail n [->|(rest & ->)]; reflexivity. }
  split; [|split].
  - intros e rest Hout. unfold run_gen. rewrite Hout.
    destruct (read_loop_chunks (Raise e :: rest) Hne 0) as [m Hm].
    rewrite Hm. simpl. rewrite app_nil_r. eexists. reflexivity.
  - intros tail e rest Hout Htail Herr. unfold run_gen. rewrite Hout.
    destruct (read_loop_chunks tail Hne 0) as [m Hm].
    rewrite Hm, (Hend tail m Htail), Herr. simpl. rewrite app_nil_r.
    eexists. reflexivity.
  - intros tail Hout Htail Herr. unfold run_gen. rewrite Hout.
    destruct (read_loop_chunks tail Hne 0) as [m Hm].
    rewrite Hm, (Hend tail m Htail). simpl. rewrite app_nil_r.
    destruct Herr as [->|(data & rest & ->)]; reflexivity.
Qed.

(** A concatenator that writes one chunk and exits with status 1: the
    chunk is delivered and the stream ends normally. *)
Lemma gen_delivery_witness :
  snd (run_gen (lib := Concrete.lib)
         (Concrete.generator_of Concrete.failing_process) Concrete.empty_world)
  = {| delivered := ["ID3"]%string; ended := Exhausted |}.
Proof.
  refine (proj2 (proj2 (gen_delivery Concrete.lib
                          (Concrete.generator_of Concrete.failing_process)
                          Concrete.empty_world (chunks := ["ID3"]%string) _))
            [] eq_refl (or_introl eq_refl) _).
  - repeat constructor. discriminate.
  - right. eexists. eexists. reflexivity.
Defined.

(** C9: the code at the failing inputs.  The bound of [download] is the
    constant 30 of [Query(2, ge=1, le=30)]: with [MAX_DOWNLOAD_MINUTES=10]
    a request for 20 minutes is accepted and served, and no setting makes a
    request for 45 minutes acceptable. *)
Theorem download_bound_is_constant :
  MAX_DOWNLOAD_MINUTES Concrete.strict_settings = 10%Z
  /\ query_minutes (IntValue 20) = Ok 20%Z
  /\ http_status
       (snd (download (lib := Concrete.lib) Concrete.strict_settings
               (init_manager Concrete.strict_settings)
               (Concrete.os_with Concrete.good_process) Concrete.long_dir
               Concrete.long_now Concrete.long_dir Concrete.empty_world
               (IntValue 20)))
     = 200%Z
  /\ (forall settings : Settings,
        query_minutes (IntValue 45) = Raise RequestValidationError)
  /\ (forall z, query_minutes (IntValue z) = Ok z <-> (1 <= z <= 30)%Z).
Proof.
  split; [reflexivity|]. split; [reflexivity|].
  split; [vm_compute; reflexivity|]. split; [reflexivity|].
  intros z. unfold query_minutes.
  destruct (Z.leb_spec 1 z); destruct (Z.leb_spec z 30); simpl;
    split; intros Hz; try reflexivity; try discriminate; lia.
Qed.

(* ================================================================= *)
(** * Further properties of the program *)

(** ** The listing and the names *)

Section NameFacts.
Local Open Scope string_scope.

Lemma has_char_app (c : ascii) (s1 s2 : string) :
  has_char c (s1 ++ s2) = has_char c s1 || has_char c s2.
Proof.
  induction s1 as [|a s1 IH]; simpl; [reflexivity|].
  rewrite IH, orb_assoc. reflexivity.
Qed.

Lemma split_first_app (c : ascii) (pre rest : string) :
  has_char c pre = false ->
  split_first c (pre ++ String c rest) = Some (pre, rest).
Proof.
  induction pre as [|a pre IH]; simpl; intros H.
  - rewrite Ascii.eqb_refl. reflexivity.
  - apply orb_false_iff in H. destruct H as [Ha Hpre].
    rewrite Ha, (IH Hpre). reflexivity.
Qed.

Lemma split_first_absent (c : ascii) (s : string) :
  has_char c s = false -> split_first c s = None.
Proof.
  induction s as [|a s IH]; simpl; intros H; [reflexivity|].
  apply orb_false_iff in H. destruct H as [Ha Hs].
  rewrite Ha, (IH Hs). reflexivity.
Qed.

End NameFacts.

(** The listing follows the order of the directory, lists exactly the
    regular files named [seg_<anything>.mp3], lists nothing for a directory
    that does not exist, and lists no name twice when the directory holds
    none twice. *)
Theorem iter_segment_files_listing (d : directory) :
  (d = None -> _iter_segment_files d = [])
  /\ (forall es1 es2,
        _iter_segment_files (Some (es1 ++ es2))
        = _iter_segment_files (Some es1) ++ _iter_segment_files (Some es2))
  /\ (forall p,
        In p (_iter_segment_files d) <->
        exists e mid,
          In e (entries d) /\ e_name e = p /\ e_is_file e = true
          /\ p = ("seg_" ++ mid ++ ".mp3")%string)
  /\ (NoDup (map e_name (entries d)) -> NoDup (_iter_segment_files d)).
Proof.
  split; [intros ->; reflexivity|]. split; [|split].
  - intros es1 es2. simpl. rewrite filter_app, map_app. reflexivity.
  - intros p. rewrite iter_segment_files_spec. split.
    + intros (e & Hin & Hn & Hl). unfold listed in Hl.
      apply andb_true_iff in Hl. destruct Hl as [Hg Hf].
      rewrite Hn in Hg. apply glob_seg_mp3_spec in Hg.
      destruct Hg as [mid Hmid]. exists e, mid. auto.
    + intros (e & mid & Hin & Hn & Hf & Hmid). exists e.
      split; [exact Hin|]. split; [exact Hn|].
      unfold listed. rewrite Hf, Hn, andb_true_r.
      apply glob_seg_mp3_spec. exists mid. exact Hmid.
  - intros Hnd. destruct d as [es|]; simpl; [|constructor].
    apply NoDup_map_filter. exact Hnd.
Qed.

(** Of [mixed_dir] the two segment files are listed, not the directory
    [seg_old.mp3] nor [notes.txt]. *)
Lemma iter_segment_files_listing_witness :
  NoDup (_iter_segment_files Concrete.mixed_dir)
  /\ _iter_segment_files Concrete.mixed_dir
     = ["seg_20240101_120000.mp3"; "seg_20240101_120002.mp3"]%string.
Proof.
  split; [|reflexivity].
  apply (proj2 (proj2 (proj2 (iter_segment_files_listing Concrete.mixed_dir)))).
  apply distinctb_NoDup. reflexivity.
Defined.

(** The timestamp of a name is read between its first underscore and its
    first dot: what stands before the underscore and what follows the dot
    do not matter, and a name with no underscore before its first dot has
    no timestamp. *)
Theorem timestamp_from_name_parts (lib : PyLib) (pre ts rest : string) :
  has_char "." pre = false -> has_char "_" pre = false ->
  has_char "." ts = false ->
  _timestamp_from_name (pre ++ "_" ++ ts ++ "." ++ rest)%string
  = match strptime ts "%Y%m%d_%H%M%S" with
    | Ok t => Some t
    | Raise _ => None
    end.
Proof.
  intros Hdot Hus Hts. unfold _timestamp_from_name, split_head.
  assert (Hname : (pre ++ "_" ++ ts ++ "." ++ rest
                   = (pre ++ "_" ++ ts) ++ String "." rest)%string).
  { rewrite !append_assoc. reflexivity. }
  rewrite Hname, split_first_app.
  - change (pre ++ "_" ++ ts)%string with (pre ++ String "_" ts)%string.
    rewrite split_first_app by exact Hus. reflexivity.
  - rewrite !has_char_app, Hdot, Hts. reflexivity.
Qed.

(** The name the encoder writes for 2024-01-01 12:00:00. *)
Lemma timestamp_from_name_parts_witness :
  _timestamp_from_name (lib := Concrete.lib) "seg_20240101_120000.mp3"
  = Some (mk_datetime 2024 1 1 12 0 0 0).
Proof.
  exact (timestamp_from_name_parts Concrete.lib "seg" "20240101_120000" "mp3"
           eq_refl eq_refl eq_refl).
Defined.

(** A name with no underscore before its first dot has no timestamp,
    whatever the library would parse. *)
Theorem timestamp_from_name_no_underscore (lib : PyLib) (name : string) :
  has_char "_" (split_head "." name) = false ->
  _timestamp_from_name name = None.
Proof.
  intros H. unfold _timestamp_from_name.
  rewrite (split_first_absent _ _ H). reflexivity.
Qed.

Lemma timestamp_from_name_no_underscore_witness :
  _timestamp_from_name (lib := Concrete.lib) "segment.2024_01.mp3" = None.
Proof.
  exact (timestamp_from_name_no_underscore Concrete.lib "segment.2024_01.mp3"
           eq_refl).
Defined.

(** ** More on the selection *)

Section SelectionMore.
Context {lib : PyLib}.

Lemma recent_segments_nonpositive self d now minutes :
  (minutes <= 0)%Z -> recent_segments_for_minutes self d now minutes = Ok [].
Proof.
  intros Hm. unfold recent_segments_for_minutes, selected_segments.
  destruct (Z.leb_spec minutes 0); [reflexivity|lia].
Qed.

Lemma selected_segments_firstn self d now minutes :
  (0 < minutes)%Z -> (0 < segment_seconds self)%Z ->
  selected_segments self d now minutes
  = Ok (sort (@snd string datetime) datetime_ltb
          (firstn (taken self d now minutes)
             (sort_reverse (@snd string datetime) datetime_ltb
                (stable_segments_of d now)))).
Proof.
  intros Hm Hs. unfold taken.
  destruct (stable_segments_of d now) as [|s ss] eqn:Hst.
  - unfold selected_segments. rewrite Hst.
    destruct (minutes <=? 0)%Z; rewrite firstn_nil; reflexivity.
  - rewrite selected_segments_nonempty by (try lia; congruence).
    rewrite segments_needed_positive by assumption. simpl bind.
    rewrite sort_reverse_length, Hst. unfold slice_to.
    assert (Hq : (0 <= minutes * 60 / segment_seconds self)%Z).
    { apply Z.div_pos; lia. }
    match goal with
    | |- context [(?k <? 0)%Z] => destruct (Z.ltb_spec k 0) as [Hneg|Hpos]
    end.
    + simpl List.length in Hneg. lia.
    + reflexivity.
Qed.

Lemma taken_mono self d now m1 m2 :
  (0 < segment_seconds self)%Z -> (m1 <= m2)%Z ->
  (taken self d now m1 <= taken self d now m2)%nat.
Proof.
  intros Hs Hm. unfold taken.
  assert (m1 * 60 / segment_seconds self <= m2 * 60 / segment_seconds self)%Z.
  { apply Z.div_le_mono; lia. }
  lia.
Qed.

Lemma firstn_incl_le (A : Type) (n m : nat) (l : list A) :
  (n <= m)%nat -> incl (firstn n l) (firstn m l).
Proof.
  revert m l. induction n as [|n IH]; intros m l Hnm x Hx; simpl in Hx.
  - contradiction.
  - destruct l as [|a l]; [contradiction|].
    destruct m as [|m]; [lia|]. simpl.
    destruct Hx as [->|Hx]; [left; reflexivity|].
    right. apply (IH m l); [lia|exact Hx].
Qed.

Lemma not_after_trans (a b c : string * datetime) :
  not_after (@snd string datetime) datetime_ltb a b ->
  not_after (@snd string datetime) datetime_ltb b c ->
  not_after (@snd string datetime) datetime_ltb a c.
Proof.
  unfold not_after. rewrite !not_after_le. apply datetime_le_trans.
Qed.

Lemma strongly_sorted_app (A : Type) (R : A -> A -> Prop) (l1 l2 : list A) :
  StronglySorted R (l1 ++ l2) ->
  forall x y, In x l1 -> In y l2 -> R x y.
Proof.
  induction l1 as [|a l1 IH]; simpl; intros Hs x y Hx Hy; [contradiction|].
  inversion Hs as [|a' l' Hs' Hall]; subst.
  destruct Hx as [->|Hx].
  - rewrite Forall_forall in Hall. apply Hall, in_or_app. right. exact Hy.
  - apply IH; assumption.
Qed.

Lemma strongly_sorted_snoc (A : Type) (R : A -> A -> Prop) (l : list A)
    (a : A) :
  StronglySorted R l -> Forall (fun x => R x a) l ->
  StronglySorted R (l ++ [a]).
Proof.
  induction 1 as [|b l Hs IH Hall]; intros Hfa; simpl.
  - repeat constructor.
  - inversion Hfa as [|b' l' Hba Hla]; subst. constructor.
    + apply IH. exact Hla.
    + apply Forall_app. split; [exact Hall|]. repeat constructor. exact Hba.
Qed.

Lemma strongly_sorted_rev (A : Type) (R : A -> A -> Prop) (l : list A) :
  StronglySorted R l -> StronglySorted (fun x y => R y x) (rev l).
Proof.
  induction 1 as [|a l Hs IH Hall]; simpl; [constructor|].
  apply strongly_sorted_snoc; [exact IH|].
  apply Forall_rev. exact Hall.
Qed.

(** After the first sort the stable segments stand newest first. *)
Lemma sort_reverse_sorted (l : list (string * datetime)) :
  StronglySorted (not_before (@snd string datetime) datetime_ltb)
    (sort_reverse (@snd string datetime) datetime_ltb l).
Proof.
  unfold sort_reverse.
  apply (strongly_sorted_rev
           (R := not_after (@snd string datetime) datetime_ltb)).
  apply Sorted_StronglySorted.
  - intros a b c. apply not_after_trans.
  - apply sort_sorted. exact datetime_ltb_asym.
Qed.

End SelectionMore.

(** The selector returns the empty list for every [minutes <= 0], whatever
    the configuration; and with a positive segment duration it returns the
    empty list only then or when no segment is stable. *)
Theorem select_empty_iff (lib : PyLib) (self : FFmpegBufferManager)
    (d : directory) (now : Q) (minutes : Z) :
  ((minutes <= 0)%Z ->
   recent_segments_for_minutes self d now minutes = Ok [])
  /\ (stable_segments_of d now = [] ->
      recent_segments_for_minutes self d now minutes = Ok [])
  /\ ((0 < segment_seconds self)%Z ->
      recent_segments_for_minutes self d now minutes = Ok [] ->
      (minutes <= 0)%Z \/ stable_segments_of d now = []).
Proof.
  unfold recent_segments_for_minutes, selected_segments.
  split; [|split].
  - intros Hm. destruct (Z.leb_spec minutes 0); [reflexivity|lia].
  - intros ->. destruct (minutes <=? 0)%Z; reflexivity.
  - intros Hs Hl.
    destruct (Z.leb_spec minutes 0) as [Hle|Hgt]; [left; exact Hle|right].
    destruct (selected_segments_count self d now Hgt Hs)
      as (sel & Hsel & Hlen).
    unfold selected_segments in Hsel.
    destruct (Z.leb_spec minutes 0) as [Hle|_]; [lia|].
    destruct (stable_segments_of d now) as [|s ss]; [reflexivity|].
    rewrite Hsel in Hl. simpl in Hl. injection Hl as Hl.
    apply map_eq_nil in Hl. subst sel.
    assert (0 <= minutes * 60 / segment_seconds self)%Z
      by (apply Z.div_pos; lia).
    simpl List.length in Hlen. lia.
Qed.

(** A request for zero minutes on a full directory, and a positive request
    that comes back empty on a directory whose only segment is fresh. *)
Lemma select_empty_iff_witness :
  recent_segments_for_minutes (lib := Concrete.lib) Concrete.manager
    Concrete.long_dir Concrete.long_now 0 = Ok []
  /\ ((2 <= 0)%Z
      \/ stable_segments_of (lib := Concrete.lib) Concrete.edge_dir
           Concrete.edge_now = []).
Proof.
  split.
  - apply (proj1 (select_empty_iff Concrete.lib Concrete.manager
                    Concrete.long_dir Concrete.long_now 0)). lia.
  - apply (proj2 (proj2 (select_empty_iff Concrete.lib Concrete.manager
                           Concrete.edge_dir Concrete.edge_now 2))).
    + reflexivity.
    + vm_compute. reflexivity.
Defined.



(** Asking for more minutes never loses a segment: with a positive segment
    duration, what is returned for [m1] is returned for every [m2 >= m1]. *)
Theorem select_monotone (lib : PyLib) (self : FFmpegBufferManager)
    (d : directory) (now : Q) (m1 m2 : Z) (l1 l2 : list string) :
  (0 < segment_seconds self)%Z -> (m1 <= m2)%Z ->
  recent_segments_for_minutes self d now m1 = Ok l1 ->
  recent_segments_for_minutes self d now m2 = Ok l2 ->
  incl l1 l2.
Proof.
  intros Hs Hm H1 H2.
  destruct (Z.leb_spec m1 0) as [Hle|Hgt].
  { rewrite (recent_segments_nonpositive self d now Hle) in H1.
    injection H1 as <-. intros x []. }
  destruct (recent_segments_inv _ _ _ _ H1) as (s1 & Hs1 & ->).
  destruct (recent_segments_inv _ _ _ _ H2) as (s2 & Hs2 & ->).
  rewrite selected_segments_firstn in Hs1, Hs2 by lia.
  injection Hs1 as <-. injection Hs2 as <-.
  apply incl_map. intros x Hx.
  apply (Permutation_in _ (sort_perm _ _ _)) in Hx.
  apply (Permutation_in _ (Permutation_sym (sort_perm _ _ _))).
  revert Hx. apply firstn_incl_le, taken_mono; assumption.
Qed.

(** With one-minute segments, the two segments returned for one minute are
    among the three returned for two minutes. *)
Lemma select_monotone_witness :
  incl ["seg_20240101_120002.mp3"; "seg_20240101_120004.mp3"]%string
       ["seg_20240101_120000.mp3"; "seg_20240101_120002.mp3";
        "seg_20240101_120004.mp3"]%string.
Proof.
  apply (select_monotone Concrete.lib Concrete.coarse_manager
           Concrete.small_dir Concrete.small_now (m1 := 1) (m2 := 2)).
  - reflexivity.
  - lia.
  - vm_compute. reflexivity.
  - vm_compute. reflexivity.
Defined.

(** The selector takes the newest: no stable segment that it leaves out has
    a timestamp after that of a segment it returns. *)
Theorem select_takes_newest (lib : PyLib) (self : FFmpegBufferManager)
    (d : directory) (now : Q) (minutes : Z)
    (sel : list (string * datetime)) :
  (0 < minutes)%Z -> (0 < segment_seconds self)%Z ->
  selected_segments self d now minutes = Ok sel ->
  forall x y,
    In x sel -> In y (stable_segments_of d now) -> ~ In y sel ->
    datetime_le (snd y) (snd x).
Proof.
  intros Hm Hs Hsel x y Hx Hy Hny.
  rewrite selected_segments_firstn in Hsel by assumption.
  injection Hsel as <-.
  set (sl := sort_reverse (@snd string datetime) datetime_ltb
               (stable_segments_of d now)) in *.
  set (n := taken self d now minutes) in *.
  apply (Permutation_in _ (sort_perm _ _ _)) in Hx.
  assert (Hy' : In y (skipn n sl)).
  { apply (Permutation_in _
             (Permutation_sym
                (sort_reverse_perm (@snd string datetime) datetime_ltb
                   (stable_segments_of d now)))) in Hy.
    fold sl in Hy. rewrite <- (firstn_skipn n sl) in Hy.
    apply in_app_or in Hy. destruct Hy as [Hy|Hy]; [|exact Hy].
    exfalso. apply Hny.
    apply (Permutation_in _ (Permutation_sym (sort_perm _ _ _))). exact Hy. }
  apply not_after_le.
  apply (strongly_sorted_app (R := not_before (@snd string datetime)
                                     datetime_ltb)
           (firstn n sl) (skipn n sl)); try assumption.
  rewrite firstn_skipn. apply sort_reverse_sorted.
Qed.

(** With one-minute segments and a request for one minute, two of the three
    stable segments of [small_dir] are returned; the one left out is not
    newer than the newest returned. *)
Lemma select_takes_newest_witness :
  datetime_le (mk_datetime 2024 1 1 12 0 0 0) (mk_datetime 2024 1 1 12 0 4 0).
Proof.
  apply (select_takes_newest Concrete.lib Concrete.coarse_manager
           Concrete.small_dir Concrete.small_now (minutes := 1)
           (sel := [("seg_20240101_120002.mp3"%string,
                     mk_datetime 2024 1 1 12 0 2 0);
                    ("seg_20240101_120004.mp3"%string,
                     mk_datetime 2024 1 1 12 0 4 0)])
           eq_refl eq_refl)
    with (x := ("seg_20240101_120004.mp3"%string,
                mk_datetime 2024 1 1 12 0 4 0))
         (y := ("seg_20240101_120000.mp3"%string,
                mk_datetime 2024 1 1 12 0 0 0)).
  - vm_compute. reflexivity.
  - simpl. auto.
  - vm_compute. auto.
  - simpl. intros [H|[H|[]]]; discriminate.
Defined.



(** ** More on the retention sweep *)

Section SweepMore.

Lemma filter_filter (A : Type) (f g : A -> bool) (l : list A) :
  filter f (filter g l) = filter (fun x => g x && f x) l.
Proof.
  induction l as [|x l IH]; simpl; [reflexivity|].
  destruct (g x); simpl; [|exact IH].
  destruct (f x); rewrite IH; reflexivity.
Qed.

Lemma filter_map_length (A B : Type) (f : B -> bool) (g : A -> B)
    (l : list A) :
  List.length (filter f (map g l))
  = List.length (filter (fun x => f (g x)) l).
Proof.
  induction l as [|x l IH]; simpl; [reflexivity|].
  destruct (f (g x)); simpl; rewrite IH; reflexivity.
Qed.

(** The directory after a tick, as a filter of the directory before it. *)
Lemma cleanup_dir (self : FFmpegBufferManager) (d : directory) (now : Q) :
  NoDup (map e_name (entries d)) ->
  sw_dir (_cleanup_old_segments self d now)
  = option_map (filter (fun e => negb (swept (cutoff_of self now) e))) d.
Proof.
  intros Hnd. unfold _cleanup_old_segments. fold (cutoff_of self now).
  match goal with
  | |- context [fold_left (sweep_file ?c) ?ps ?s] =>
      destruct (@sweep_fold_dir c d ps s [])
        as (names' & Hdir & Hnames)
  end.
  { simpl. symmetry. apply without_nil. }
  rewrite Hdir. unfold without_names.
  destruct d as [es|]; simpl; [|reflexivity]. f_equal.
  apply filter_ext_in. intros e Hin. f_equal.
  destruct (swept (cutoff_of self now) e) eqn:Hsw.
  - apply existsb_eqb_In, Hnames. right.
    apply (swept_doomed (cutoff_of self now) (Some es) e Hnd Hin). exact Hsw.
  - apply not_true_iff_false. intros Hex.
    apply existsb_eqb_In, Hnames in Hex. destruct Hex as [[]|Hex].
    apply (swept_doomed (cutoff_of self now) (Some es) e Hnd Hin) in Hex.
    congruence.
Qed.

Lemma cleanup_keeps_NoDup (self : FFmpegBufferManager) (d : directory)
    (now : Q) :
  NoDup (map e_name (entries d)) ->
  NoDup (map e_name (entries (sw_dir (_cleanup_old_segments self d now)))).
Proof.
  intros Hnd. rewrite cleanup_dir by exact Hnd.
  destruct d as [es|]; simpl; [|constructor].
  apply NoDup_map_filter. exact Hnd.
Qed.

Lemma swept_mono (c1 c2 : Q) (e : entry) :
  (c1 <= c2)%Q -> swept c1 e = true -> swept c2 e = true.
Proof.
  intros Hc. unfold swept. rewrite !andb_true_iff.
  intros [[Hl Hold] Hu]. repeat split; try assumption.
  destruct (e_stat e) as [st|]; [|discriminate].
  unfold Qlt_bool in *. rewrite negb_true_iff in *.
  apply not_true_iff_false. intros H. apply Qle_bool_iff in H.
  apply not_true_iff_false in Hold. apply Hold, Qle_bool_iff. lra.
Qed.

(** A tick at a later time does all that an earlier tick did. *)
Lemma cleanup_twice (self : FFmpegBufferManager) (d : directory)
    (now1 now2 : Q) :
  NoDup (map e_name (entries d)) -> (now1 <= now2)%Q ->
  sw_dir (_cleanup_old_segments self
            (sw_dir (_cleanup_old_segments self d now1)) now2)
  = sw_dir (_cleanup_old_segments self d now2).
Proof.
  intros Hnd Hle.
  rewrite (cleanup_dir self (sw_dir (_cleanup_old_segments self d now1)) now2)
    by (apply cleanup_keeps_NoDup; exact Hnd).
  rewrite !cleanup_dir by exact Hnd.
  destruct d as [es|]; simpl; [|reflexivity]. f_equal.
  rewrite filter_filter. apply filter_ext. intros e.
  destruct (swept (cutoff_of self now1) e) eqn:H1; simpl; [|reflexivity].
  rewrite (@swept_mono (cutoff_of self now1) (cutoff_of self now2) e);
    [reflexivity| |exact H1].
  unfold cutoff_of. lra.
Qed.

(** One iteration of the sweep counts the path once, as deleted or as kept
    or not at all. *)
Lemma sweep_file_counts (c : Q) (d0 : directory) (names : list string)
    (s : sweep_state) (p : string) :
  sw_dir s = without_names names d0 -> ~ In p names ->
  deleted_count (sweep_file c s p)
  = (deleted_count s + if doomed c d0 p then 1 else 0)%Z
  /\ kept_count (sweep_file c s p)
     = (kept_count s + if spared c d0 p then 1 else 0)%Z.
Proof.
  intros Hs Hp. unfold sweep_file, stat, unlink, doomed, spared. rewrite Hs.
  assert (Hl : lookup p (entries (without_names names d0))
               = lookup p (entries d0)).
  { assert (Hex : existsb (String.eqb p) names = false).
    { apply not_true_iff_false. intros H. apply Hp, existsb_eqb_In, H. }
    destruct d0 as [es|]; simpl; [|reflexivity].
    rewrite lookup_without, Hex. reflexivity. }
  rewrite Hl.
  destruct (lookup p (entries d0)) as [e|]; simpl; [|lia].
  destruct (e_stat e) as [st|]; simpl; [|lia].
  destruct (Qlt_bool (st_mtime st) c); simpl.
  - destruct (e_unlink_ok e); simpl; lia.
  - lia.
Qed.

Lemma sweep_fold_counts (c : Q) (d0 : directory) (ps : list string) :
  forall (s : sweep_state) (names : list string),
    sw_dir s = without_names names d0 -> NoDup ps ->
    (forall p, In p ps -> ~ In p names) ->
    deleted_count (fold_left (sweep_file c) ps s)
    = (deleted_count s
       + Z.of_nat (List.length (filter (doomed c d0) ps)))%Z
    /\ kept_count (fold_left (sweep_file c) ps s)
       = (kept_count s
          + Z.of_nat (List.length (filter (spared c d0) ps)))%Z.
Proof.
  induction ps as [|p ps IH]; intros s names Hs Hnd Hdisj; simpl.
  - split; lia.
  - inversion Hnd as [|p' ps' Hnin Hnd']; subst.
    assert (Hp : ~ In p names) by (apply Hdisj; left; reflexivity).
    destruct (sweep_file_counts c d0 names s p Hs Hp) as [Hdel Hkept].
    pose proof (sweep_file_dir c d0 names s p Hs) as Hdir.
    destruct (IH _ _ Hdir Hnd') as [IHd IHk].
    { intros q Hq Hin.
      destruct (doomed c d0 p && negb (existsb (String.eqb p) names)).
      - destruct Hin as [<-|Hin]; [contradiction|].
        apply (Hdisj q); [right; exact Hq|exact Hin].
      - apply (Hdisj q); [right; exact Hq|exact Hin]. }
    rewrite IHd, IHk, Hdel, Hkept.
    destruct (doomed c d0 p); destruct (spared c d0 p);
      simpl List.length; split; lia.
Qed.

Lemma cleanup_counts (self : FFmpegBufferManager) (d : directory)
    (now : Q) :
  NoDup (map e_name (entries d)) ->
  deleted_count (_cleanup_old_segments self d now)
  = Z.of_nat (List.length (filter (swept (cutoff_of self now)) (entries d)))
  /\ kept_count (_cleanup_old_segments self d now)
     = Z.of_nat
         (List.length (filter (retained (cutoff_of self now)) (entries d))).
Proof.
  intros Hnd. set (c := cutoff_of self now).
  assert (Hcounts :
    deleted_count (_cleanup_old_segments self d now)
    = Z.of_nat (List.length (filter (doomed c d) (_iter_segment_files d)))
    /\ kept_count (_cleanup_old_segments self d now)
       = Z.of_nat (List.length (filter (spared c d) (_iter_segment_files d)))).
  { unfold _cleanup_old_segments. fold (cutoff_of self now). fold c.
    destruct (@sweep_fold_counts c d (_iter_segment_files d)
                {| sw_dir := d; deleted_count := 0; kept_count := 0 |} [])
      as [Hd Hk].
    - simpl. symmetry. apply without_nil.
    - destruct d as [es|]; simpl; [|constructor].
      apply NoDup_map_filter. exact Hnd.
    - intros p _ [].
    - rewrite Hd, Hk. simpl. split; reflexivity. }
  destruct Hcounts as [Hd Hk]. split.
  - rewrite Hd. f_equal. destruct d as [es|]; simpl; [|reflexivity].
    rewrite filter_map_length, filter_filter. f_equal.
    apply filter_ext_in. intros e Hin. unfold swept, doomed. simpl.
    rewrite (lookup_NoDup es e Hnd Hin). fold (listed e).
    destruct (listed e); destruct (e_stat e); reflexivity.
  - rewrite Hk. f_equal. destruct d as [es|]; simpl; [|reflexivity].
    rewrite filter_map_length, filter_filter. f_equal.
    apply filter_ext_in. intros e Hin. unfold retained, spared. simpl.
    rewrite (lookup_NoDup es e Hnd Hin). fold (listed e). reflexivity.
Qed.

End SweepMore.

(** What a tick leaves is the directory it found, in the same order, less
    the segments it deletes; a directory that does not exist still does not
    exist; and the counters of the tick are the number of segments deleted
    and the number of listed, readable segments that are not old enough. *)
Theorem sweep_tick_result (self : FFmpegBufferManager) (d : directory)
    (now : Q) :
  NoDup (map e_name (entries d)) ->
  let s := _cleanup_old_segments self d now in
  let c := cutoff_of self now in
  sw_dir s = option_map (filter (fun e => negb (swept c e))) d
  /\ deleted_count s
     = Z.of_nat (List.length (filter (swept c) (entries d)))
  /\ kept_count s
     = Z.of_nat (List.length (filter (retained c) (entries d)))
  /\ Z.of_nat (List.length (entries d))
     = (Z.of_nat (List.length (entries (sw_dir s))) + deleted_count s)%Z.
Proof.
  intros Hnd s c.
  destruct (cleanup_counts self d now Hnd) as [Hdel Hkept].
  pose proof (cleanup_dir self d now Hnd) as Hdir.
  fold s c in Hdel, Hkept, Hdir.
  split; [exact Hdir|]. split; [exact Hdel|]. split; [exact Hkept|].
  rewrite Hdel, Hdir. destruct d as [es|]; simpl; [|reflexivity].
  rewrite <- (filter_length (swept c) es). lia.
Qed.

(** The tick over [sweep_dir] deletes fifteen of the fifty segments. *)
Lemma sweep_tick_result_witness :
  deleted_count (_cleanup_old_segments Concrete.manager Concrete.sweep_dir
                   Concrete.sweep_now)
  = Z.of_nat
      (List.length
         (filter (swept (cutoff_of Concrete.manager Concrete.sweep_now))
            (entries Concrete.sweep_dir))).
Proof.
  refine (proj1 (proj2 (sweep_tick_result Concrete.manager Concrete.sweep_dir
                          Concrete.sweep_now _))).
  apply distinctb_NoDup. vm_compute. reflexivity.
Defined.

(** A second tick at the same clock reading deletes nothing and leaves the
    directory as the first tick left it. *)
Theorem sweep_idempotent (self : FFmpegBufferManager) (d : directory)
    (now : Q) :
  NoDup (map e_name (entries d)) ->
  let first := _cleanup_old_segments self d now in
  let second := _cleanup_old_segments self (sw_dir first) now in
  sw_dir second = sw_dir first /\ deleted_count second = 0%Z.
Proof.
  intros Hnd first second.
  assert (Hnd1 : NoDup (map e_name (entries (sw_dir first)))).
  { apply cleanup_keeps_NoDup. exact Hnd. }
  split.
  - unfold second, first. apply cleanup_twice; [exact Hnd|lra].
  - destruct (cleanup_counts self (sw_dir first) now Hnd1) as [Hdel _].
    fold second in Hdel. rewrite Hdel.
    unfold first. rewrite cleanup_dir by exact Hnd.
    destruct d as [es|]; simpl; [|reflexivity].
    rewrite filter_filter.
    rewrite (filter_ext _ (fun _ => false)), filter_false; [reflexivity|].
    intros e. destruct (swept (cutoff_of self now) e); reflexivity.
Qed.

(** Two ticks over [sweep_dir] at the same clock reading. *)
Lemma sweep_idempotent_witness :
  deleted_count
    (_cleanup_old_segments Concrete.manager
       (sw_dir (_cleanup_old_segments Concrete.manager Concrete.sweep_dir
                  Concrete.sweep_now))
       Concrete.sweep_now)
  = 0%Z.
Proof.
  refine (proj2 (sweep_idempotent Concrete.manager Concrete.sweep_dir
                   Concrete.sweep_now _)).
  apply distinctb_NoDup. vm_compute. reflexivity.
Defined.

(** While nothing else writes to the directory, the cleaner's ticks at
    clock readings that do not go back leave what a single tick at the last
    reading leaves. *)
Theorem run_cleaner_last_tick (self : FFmpegBufferManager) (ticks : list Q) :
  forall d : directory,
    NoDup (map e_name (entries d)) -> Sorted Qle ticks -> ticks <> [] ->
    _run_cleaner self d ticks
    = sw_dir (_cleanup_old_segments self d (last ticks 0)).
Proof.
  induction ticks as [|t1 rest IH]; intros d Hnd Hs Hne; [congruence|].
  destruct rest as [|t2 rest'].
  - reflexivity.
  - inversion Hs as [|t l Hs' Hhd]; subst.
    inversion Hhd as [|t l Ht]; subst.
    change (_run_cleaner self d (t1 :: t2 :: rest'))
      with (fold_left
              (fun d now_ts => sw_dir (_cleanup_old_segments self d now_ts))
              rest'
              (sw_dir (_cleanup_old_segments self
                         (sw_dir (_cleanup_old_segments self d t1)) t2))).
    rewrite (cleanup_twice self d Hnd Ht).
    change (last (t1 :: t2 :: rest') 0) with (last (t2 :: rest') 0).
    rewrite <- (IH d Hnd Hs'); [reflexivity|discriminate].
Qed.

(** Three ticks over [sweep_dir], thirty seconds apart. *)
Lemma run_cleaner_last_tick_witness :
  _run_cleaner Concrete.manager Concrete.sweep_dir
    [Concrete.sweep_now; Concrete.sweep_now + 30; Concrete.sweep_now + 60]
  = sw_dir (_cleanup_old_segments Concrete.manager Concrete.sweep_dir
              (Concrete.sweep_now + 60)).
Proof.
  apply (@run_cleaner_last_tick Concrete.manager
           [Concrete.sweep_now; Concrete.sweep_now + 30;
            Concrete.sweep_now + 60] Concrete.sweep_dir).
  - apply distinctb_NoDup. vm_compute. reflexivity.
  - repeat constructor; vm_compute; discriminate.
  - discriminate.
Defined.

(** ** The estimated duration of a file *)



(** ** More on the concatenation streamer *)

Section StreamMore.
Context {lib : PyLib}.
Variable settings : Settings.

Lemma stat_raises (d : directory) (p : string) (e : exn) :
  stat d p = Raise e -> e = FileNotFoundError \/ e = OSError.
Proof.
  unfold stat. destruct (lookup p (entries d)) as [x|].
  - destruct (e_stat x); [discriminate|].
    intros H; injection H as <-. auto.
  - intros H; injection H as <-. auto.
Qed.

Lemma usable_spec (d : directory) (p : string) :
  usable d p = true <->
  path_exists d p = true
  /\ exists st, stat d p = Ok st /\ st_size st <> 0%N.
Proof.
  unfold usable, path_exists, stat.
  destruct (lookup p (entries d)) as [e|].
  - destruct (e_stat e) as [st|].
    + rewrite negb_true_iff, N.eqb_neq. split.
      * intros H. split; [reflexivity|]. exists st. auto.
      * intros (_ & st' & Hst & Hsz). injection Hst as <-. exact Hsz.
    + split; [discriminate|]. intros (_ & st & H & _). discriminate.
  - split; [discriminate|]. intros [H _]. discriminate.
Qed.

(** The filter of [_concat_stream] on its own. *)
Lemma valid_files_ok (d : directory) (file_list vs : list string) :
  valid_files_of d file_list = Ok vs -> vs = filter (usable d) file_list.
Proof.
  revert vs. induction file_list as [|p rest IH]; simpl; intros vs.
  - intros H; injection H as <-. reflexivity.
  - unfold usable at 1, path_exists, stat.
    destruct (lookup p (entries d)) as [e|]; simpl; [|apply IH].
    destruct (e_stat e) as [st|]; simpl; [|discriminate].
    destruct (st_size st =? 0)%N; simpl; [apply IH|].
    destruct (valid_files_of d rest) as [vs'|e']; simpl; [|discriminate].
    intros H; injection H as <-. f_equal. apply IH. reflexivity.
Qed.

Lemma valid_files_readable (d : directory) (file_list : list string) :
  readable d file_list ->
  valid_files_of d file_list = Ok (filter (usable d) file_list).
Proof.
  induction file_list as [|p rest IH]; intros Hr; simpl; [reflexivity|].
  assert (Hrest : valid_files_of d rest = Ok (filter (usable d) rest)).
  { apply IH. intros q Hq. apply Hr. right. exact Hq. }
  pose proof (Hr p (or_introl eq_refl)) as Hp.
  unfold usable at 1. unfold path_exists, stat in *.
  destruct (lookup p (entries d)) as [e|]; simpl; [|exact Hrest].
  destruct (Hp eq_refl) as [st Hst].
  destruct (e_stat e) as [st'|]; [|discriminate]. simpl.
  destruct (st_size st' =? 0)%N; simpl; [exact Hrest|].
  rewrite Hrest. reflexivity.
Qed.

Lemma valid_files_raise (d : directory) (file_list : list string) (e : exn) :
  valid_files_of d file_list = Raise e ->
  exists p, In p file_list /\ path_exists d p = true /\ stat d p = Raise e.
Proof.
  induction file_list as [|p rest IH]; simpl; [discriminate|].
  destruct (path_exists d p) eqn:Hex; simpl.
  - destruct (stat d p) as [st|e'] eqn:Hst; simpl.
    + destruct (st_size st =? 0)%N.
      * intros H. destruct (IH H) as (q & Hq & Hq'). exists q. auto.
      * destruct (valid_files_of d rest) as [vs|e'']; simpl; [discriminate|].
        intros H; injection H as <-.
        destruct (IH eq_refl) as (q & Hq & Hq'). exists q. auto.
    + intros H; injection H as <-. exists p. auto.
  - intros H. destruct (IH H) as (q & Hq & Hq'). exists q. auto.
Qed.

Lemma tmp_remove_create (list_path content : string) (w : world) :
  ~ In list_path (map fst (w_tmp w)) ->
  tmp_remove list_path (tmp_create list_path content w) = w.
Proof.
  intros Hfresh. destruct w as [tmp spawned killed].
  unfold tmp_remove, tmp_create. simpl in *.
  rewrite String.eqb_refl. simpl. f_equal.
  induction tmp as [|[q c] tmp IH]; simpl in *; [reflexivity|].
  destruct (String.eqb_spec q list_path) as [->|Hne]; simpl.
  - exfalso. apply Hfresh. left. reflexivity.
  - f_equal. apply IH. intros H. apply Hfresh. right. exact H.
Qed.

Lemma tmp_remove_tmp (list_path : string) (w : world) :
  w_tmp (tmp_remove list_path w)
  = filter (fun f => negb (String.eqb (fst f) list_path)) (w_tmp w).
Proof. reflexivity. Qed.

Lemma filter_fresh (list_path : string) (tmp : list (string * string)) :
  ~ In list_path (map fst tmp) ->
  filter (fun f => negb (String.eqb (fst f) list_path)) tmp = tmp.
Proof.
  induction tmp as [|[q c] tmp IH]; simpl; intros Hfresh; [reflexivity|].
  destruct (String.eqb_spec q list_path) as [->|Hne]; simpl.
  - exfalso. apply Hfresh. left. reflexivity.
  - f_equal. apply IH. intros H. apply Hfresh. right. exact H.
Qed.

Lemma read_loop_cons (a : ascii) (c : string) (rest : pipe) (n : Z) :
  read_loop (Ok (String a c) :: rest) n
  = (String a c
       :: fst (fst (read_loop rest
                      (n + Z.of_nat (String.length (String a c))))),
     snd (fst (read_loop rest (n + Z.of_nat (String.length (String a c))))),
     snd (read_loop rest (n + Z.of_nat (String.length (String a c))))).
Proof.
  cbn [read_loop].
  destruct (read_loop rest (n + Z.of_nat (String.length (String a c))))
    as [[cs k] r].
  reflexivity.
Qed.

(** The result of the reading loop does not depend on the count it starts
    from, except for the count. *)
Lemma read_loop_shift (stdout : pipe) :
  forall n m,
    fst (fst (read_loop stdout n)) = fst (fst (read_loop stdout m))
    /\ snd (read_loop stdout n) = snd (read_loop stdout m).
Proof.
  induction stdout as [|[chunk|e] rest IH]; intros n m;
    [simpl; auto| |simpl; auto].
  destruct chunk as [|a c]; [simpl; auto|].
  rewrite !read_loop_cons. cbn [fst snd].
  destruct (IH (n + Z.of_nat (String.length (String a c)))%Z
               (m + Z.of_nat (String.length (String a c)))%Z) as [H1 H2].
  rewrite H1, H2. auto.
Qed.

(** The count the loop keeps is the number of bytes it has yielded. *)
Lemma read_loop_count (stdout : pipe) :
  forall n,
    snd (fst (read_loop stdout n))
    = (n + Z.of_nat (String.length
                       (String.concat "" (fst (fst (read_loop stdout n))))))%Z.
Proof.
  induction stdout as [|[chunk|e] rest IH]; intros n;
    [simpl; lia| |simpl; lia].
  destruct chunk as [|a c]; [simpl; lia|].
  rewrite read_loop_cons. cbn [fst snd]. rewrite IH.
  set (cs := fst (fst (read_loop rest _))).
  destruct cs as [|c1 cs']; cbn [String.concat].
  - simpl String.length. lia.
  - rewrite !length_append. simpl String.length. lia.
Qed.

End StreamMore.

Section GeneratorFacts.
Context {lib : PyLib}.

Lemma run_gen_eq (g : generator) (w : world) :
  run_gen g w
  = (gen_cleanup g w,
     {| delivered := fst (fst (read_loop (proc_stdout (g_proc g)) 0));
        ended := ending_of (snd (read_loop (proc_stdout (g_proc g)) 0))
                   (proc_stderr (g_proc g)) |}).
Proof.
  unfold run_gen, ending_of, gen_except.
  destruct (read_loop (proc_stdout (g_proc g)) 0) as [[cs n] r].
  cbn [fst snd]. destruct r as [u|e].
  - destruct (proc_stderr (g_proc g)) as [|[data|e] rest]; cbn;
      try reflexivity.
    destruct rest as [|[data|e'] rest']; reflexivity.
  - destruct (proc_stderr (g_proc g)) as [|[data|e'] rest]; reflexivity.
Qed.

Lemma gen_next_open (g : generator) (st : gen_state) (w : world) :
  gs_status st <> GenClosed ->
  gen_next g st w
  = match pipe_read (gs_stdout st) with
    | (Ok (String _ _ as chunk), stdout') =>
        ({| gs_status := GenSuspended;
            gs_stdout := stdout';
            gs_stderr := gs_stderr st;
            gs_bytes_yielded :=
              gs_bytes_yielded st + Z.of_nat (String.length chunk) |},
         w, Yielded chunk)
    | (Ok EmptyString, stdout') =>
        match pipe_read (gs_stderr st) with
        | (Ok _, stderr') =>
            (gen_closed st stdout' stderr', gen_cleanup g w, StopIteration)
        | (Raise e, stderr') =>
            (gen_closed st stdout' (snd (gen_except e stderr')),
             gen_cleanup g w, Thrown (fst (gen_except e stderr')))
        end
    | (Raise e, stdout') =>
        (gen_closed st stdout' (snd (gen_except e (gs_stderr st))),
         gen_cleanup g w, Thrown (fst (gen_except e (gs_stderr st))))
    end.
Proof.
  intros Hst. unfold gen_next.
  destruct (gs_status st); [| |congruence];
    (destruct (pipe_read (gs_stdout st)) as [[[|a c]|e] out'];
     [destruct (pipe_read (gs_stderr st)) as [[data|e'] err'];
      [reflexivity|destruct (gen_except e' err'); reflexivity]
     |reflexivity
     |destruct (gen_except e (gs_stderr st)); reflexivity]).
Qed.

Lemma gen_drain_eq (g : generator) (w : world) :
  forall fuel st,
    gs_status st <> GenClosed ->
    (List.length (gs_stdout st) < fuel)%nat ->
    gen_drain fuel g st w
    = (gen_cleanup g w,
       {| delivered := fst (fst (read_loop (gs_stdout st) 0));
          ended := ending_of (snd (read_loop (gs_stdout st) 0))
                     (gs_stderr st) |}).
Proof.
  induction fuel as [|fuel IH]; intros st Hst Hlen; [lia|].
  cbn [gen_drain]. rewrite (@gen_next_open g st w Hst).
  destruct (gs_stdout st) as [|[[|a c]|e] rest] eqn:Hout.
  - cbn [pipe_read read_loop fst snd ending_of].
    destruct (pipe_read (gs_stderr st)) as [[data|e'] err']; reflexivity.
  - cbn [pipe_read read_loop fst snd ending_of].
    destruct (pipe_read (gs_stderr st)) as [[data|e'] err']; reflexivity.
  - cbn [pipe_read]. rewrite IH; cbn [gs_status gs_stdout gs_stderr];
      [|discriminate|simpl in Hlen; lia].
    rewrite read_loop_cons. cbn [fst snd delivered ended].
    destruct (read_loop_shift rest 0
                (0 + Z.of_nat (String.length (String a c)))) as [H1 H2].
    rewrite H1, H2. reflexivity.
  - cbn [pipe_read read_loop fst snd ending_of]. reflexivity.
Qed.

Lemma cleanup_removes_manifest (g : generator) (w : world) :
  ~ In (g_list_path g) (map fst (w_tmp (gen_cleanup g w))).
Proof.
  unfold gen_cleanup. rewrite tmp_remove_tmp.
  intros Hin. apply in_map_iff in Hin. destruct Hin as ([q c] & Hq & Hin).
  apply filter_In in Hin. destruct Hin as [_ Hne]. simpl in *. subst q.
  rewrite String.eqb_refl in Hne. discriminate.
Qed.

(** A consumer that takes [n] chunks of a generator that has started or may
    start, and closes it. *)
Lemma gen_take_eq (g : generator) (w : world) :
  forall n st,
    gs_status st <> GenClosed ->
    gs_status (fst (fst (gen_take n g st w))) = GenClosed
    /\ delivered (snd (gen_take n g st w))
       = firstn n (fst (fst (read_loop (gs_stdout st) 0)))
    /\ (gs_status st = GenSuspended \/ (0 < n)%nat ->
        snd (fst (gen_take n g st w)) = gen_cleanup g w)
    /\ (gs_status st = GenCreated -> n = 0%nat ->
        snd (fst (gen_take n g st w)) = w).
Proof.
  induction n as [|n IH]; intros st Hst.
  - cbn [gen_take]. unfold gen_close.
    destruct (gs_status st) eqn:Hs; [| |congruence]; cbn.
    + repeat split; try reflexivity. intros [H|H]; [discriminate|lia].
    + repeat split; try reflexivity. discriminate.
  - cbn [gen_take]. rewrite (@gen_next_open g st w Hst).
    destruct (gs_stdout st) as [|[[|a c]|e] rest] eqn:Hout.
    + cbn [pipe_read read_loop fst snd firstn].
      destruct (pipe_read (gs_stderr st)) as [[data|e'] err']; cbn;
        (repeat split; try reflexivity; intros; lia).
    + cbn [pipe_read read_loop fst snd firstn].
      destruct (pipe_read (gs_stderr st)) as [[data|e'] err']; cbn;
        (repeat split; try reflexivity; intros; lia).
    + cbn [pipe_read].
      match goal with
      | |- context [gen_take n g ?st' w] =>
          destruct (IH st') as (H1 & H2 & H3 & _); [discriminate|];
          destruct (gen_take n g st' w) as [[st'' w''] dl]
      end.
      cbn [fst snd gs_stdout gs_status delivered] in *.
      rewrite read_loop_cons. cbn [fst snd firstn].
      destruct (read_loop_shift rest 0
                  (0 + Z.of_nat (String.length (String a c)))) as [E1 _].
      rewrite <- E1, <- H2.
      repeat split; try assumption; try reflexivity.
      * intros _. apply H3. left. reflexivity.
      * intros _ Hn. lia.
    + cbn [pipe_read read_loop fst snd firstn]. cbn.
      repeat split; try reflexivity; intros; lia.
Qed.

End GeneratorFacts.

(** Calling [next] on the generator until it ends delivers what [_gen]
    delivers as a whole, ends the same way and leaves the same world: the
    step-by-step reading of [_gen] and its reading as one run agree. *)
Theorem gen_drain_run (lib : PyLib) (g : generator) (w : world) (fuel : nat) :
  (List.length (proc_stdout (g_proc g)) < fuel)%nat ->
  gen_drain fuel g (gen_start g) w = run_gen g w.
Proof.
  intros Hfuel. rewrite run_gen_eq, gen_drain_eq; [reflexivity| |exact Hfuel].
  discriminate.
Qed.

(** Three calls of [next] drain the generator of [good_process]. *)
Lemma gen_drain_run_witness :
  gen_drain (lib := Concrete.lib) 3
    (Concrete.generator_of Concrete.good_process)
    (gen_start (Concrete.generator_of Concrete.good_process))
    Concrete.empty_world
  = run_gen (lib := Concrete.lib)
      (Concrete.generator_of Concrete.good_process) Concrete.empty_world.
Proof.
  apply (gen_drain_run Concrete.lib
           (Concrete.generator_of Concrete.good_process)
           Concrete.empty_world (fuel := 3)).
  simpl. lia.
Defined.

(** A caller that goes away.  A consumer that takes [n] chunks and closes
    the generator leaves it closed, so that a later [next] stops at once; it
    has received the first [n] chunks of the whole stream; if it took at
    least one chunk, the [finally] block has run: the manifest is removed and
    the process is waited for, and killed if the wait fails.  If it closes
    the generator before the first [next], the body never runs and nothing
    is cleaned up. *)
Theorem gen_take_then_close (lib : PyLib) (g : generator) (w : world)
    (n : nat) :
  let st' := fst (fst (gen_take n g (gen_start g) w)) in
  let w' := snd (fst (gen_take n g (gen_start g) w)) in
  let got := delivered (snd (gen_take n g (gen_start g) w)) in
  gs_status st' = GenClosed
  /\ gen_next g st' w' = (st', w', StopIteration)
  /\ got = firstn n (delivered (snd (run_gen g w)))
  /\ ((0 < n)%nat ->
      w' = gen_cleanup g w
      /\ ~ In (g_list_path g) (map fst (w_tmp w'))
      /\ w_killed w' = w_killed w ++ killed_by_cleanup g)
  /\ (n = 0%nat -> w' = w).
Proof.
  intros st' w' got.
  destruct (gen_take_eq g w n (gen_start g))
    as (Hclosed & Hgot & Hclean & Hnone);
    [discriminate|].
  fold st' in Hclosed. fold got in Hgot. fold w' in Hclean, Hnone.
  split; [exact Hclosed|]. split.
  { unfold gen_next. rewrite Hclosed. reflexivity. }
  split.
  { rewrite Hgot, run_gen_eq. reflexivity. }
  split.
  - intros Hn. assert (Hw : w' = gen_cleanup g w) by (apply Hclean; auto).
    split; [exact Hw|]. rewrite Hw. split.
    + apply cleanup_removes_manifest.
    + unfold gen_cleanup, killed_by_cleanup.
      destruct (proc_wait (g_proc g)); simpl; [|reflexivity].
      rewrite app_nil_r. reflexivity.
  - intros ->. apply Hnone; reflexivity.
Qed.

(** A client takes one chunk of a stuck concatenator's output and goes
    away: the process is killed. *)
Lemma gen_take_then_close_witness :
  w_killed
    (snd (fst (gen_take (lib := Concrete.lib) 1
                 (Concrete.generator_of Concrete.stuck_process)
                 (gen_start (Concrete.generator_of Concrete.stuck_process))
                 Concrete.empty_world)))
  = [4246%Z].
Proof.
  refine (proj2 (proj2 (proj1 (proj2 (proj2 (proj2
            (gen_take_then_close Concrete.lib
               (Concrete.generator_of Concrete.stuck_process)
               Concrete.empty_world 1)))) _))).
  lia.
Defined.

Section ManifestFacts.
Local Open Scope string_scope.




End ManifestFacts.



(** When [_concat_stream] raises, it leaves nothing behind: the world is
    as before, with no manifest and no process.  What it raises is an
    [HTTPException] with status 500 (the manifest could not be written or
    the concatenator could not be started), or the error of the [stat] of
    one of the paths that exist. *)
Theorem concat_raise_leaves_nothing (lib : PyLib) (settings : Settings)
    (os : os_env) (d : directory) (w w' : world) (file_list : list string)
    (e : exn) :
  fresh_tmp os w ->
  _concat_stream settings os d w file_list = (w', Raise e) ->
  w' = w
  /\ ((exists detail, e = HTTPException 500 detail)
      \/ ((e = FileNotFoundError \/ e = OSError)
          /\ exists p, In p file_list /\ path_exists d p = true
                       /\ stat d p = Raise e)).
Proof.
  intros Hfresh. unfold _concat_stream.
  destruct file_list as [|p0 rest]; [discriminate|].
  destruct (valid_files_of d (p0 :: rest)) as [[|v vs]|e'] eqn:Hv.
  - discriminate.
  - destruct (os_mktemp os) as [list_path|exc] eqn:Hmk.
    + destruct (os_popen os (concat_cmd settings list_path)) as [proc|exc];
        [discriminate|].
      intros H. injection H as <- <-. split.
      * apply tmp_remove_create. apply Hfresh. exact Hmk.
      * left. eexists. reflexivity.
    + intros H. injection H as <- <-. split; [reflexivity|].
      left. eexists. reflexivity.
  - intros H. injection H as <- <-. split; [reflexivity|]. right.
    destruct (valid_files_raise _ _ Hv) as (p & Hin & Hex & Hst).
    split; [exact (stat_raises _ _ Hst)|]. exists p. auto.
Qed.

(** Without [ffmpeg] on the machine the request fails with status 500 and
    the manifest that was written is removed again. *)
Lemma concat_raise_leaves_nothing_witness :
  fst (_concat_stream (lib := Concrete.lib) default_settings
         Concrete.os_without_ffmpeg Concrete.small_dir Concrete.empty_world
         ["seg_20240101_120000.mp3"]%string)
  = Concrete.empty_world.
Proof.
  refine (proj1 (@concat_raise_leaves_nothing Concrete.lib default_settings
                   Concrete.os_without_ffmpeg Concrete.small_dir
                   Concrete.empty_world _
                   ["seg_20240101_120000.mp3"]%string
                   (HTTPException 500
                      "FFmpeg setup failed: FileNotFoundError") _ _)).
  - intros list_path _ [].
  - reflexivity.
Defined.

(** A race with the sweeper or the encoder.  If the paths that still exist
    can be read, at least one of them is not empty, and the manifest and the
    process can be created, [_concat_stream] succeeds: it writes a manifest
    of exactly the paths that exist and are not empty, in the order of its
    input, starts one concatenator on it and returns the generator. *)
Theorem concat_uses_survivors (lib : PyLib) (settings : Settings)
    (os : os_env) (d : directory) (w : world) (file_list : list string)
    (list_path : string) (proc : process) :
  readable d file_list ->
  filter (usable d) file_list <> [] ->
  os_mktemp os = Ok list_path ->
  os_popen os (concat_cmd settings list_path) = Ok proc ->
  _concat_stream settings os d w file_list
  = (spawn (concat_cmd settings list_path)
       (tmp_create list_path
          (manifest settings (filter (usable d) file_list)) w),
     Ok (IterGen {| g_proc := proc; g_list_path := list_path |})).
Proof.
  intros Hr Hne Hmk Hpo. unfold _concat_stream.
  destruct file_list as [|p0 rest]; [simpl in Hne; congruence|].
  rewrite (valid_files_readable Hr).
  destruct (filter (usable d) (p0 :: rest)) as [|v vs]; [congruence|].
  rewrite Hmk, Hpo. reflexivity.
Qed.

(** Of the three segments selected from [small_dir], one has been swept
    and one is empty when the streamer looks: the third is concatenated. *)
Lemma concat_uses_survivors_witness :
  w_tmp
    (fst (_concat_stream (lib := Concrete.lib) default_settings
            (Concrete.os_with Concrete.good_process) Concrete.raced_dir
            Concrete.empty_world
            ["seg_20240101_120000.mp3"; "seg_20240101_120002.mp3";
             "seg_20240101_120004.mp3"]%string))
  = [("/tmp/tmpk3v9.txt",
      manifest default_settings ["seg_20240101_120004.mp3"])]%string.
Proof.
  rewrite (@concat_uses_survivors Concrete.lib default_settings
             (Concrete.os_with Concrete.good_process) Concrete.raced_dir
             Concrete.empty_world
             ["seg_20240101_120000.mp3"; "seg_20240101_120002.mp3";
              "seg_20240101_120004.mp3"]%string
             "/tmp/tmpk3v9.txt" Concrete.good_process).
  - reflexivity.
  - intros p [<-|[<-|[<-|[]]]]; vm_compute; intros H;
      try discriminate; eexists; reflexivity.
  - vm_compute. discriminate.
  - reflexivity.
  - reflexivity.
Defined.

(** The life of a request that streams.  When [_concat_stream] returns its
    generator, the world holds one more manifest, which lists the usable
    paths, and one more process, started on that manifest; and when the
    generator has been iterated to its end, however it ends, the manifest is
    gone again, no further process has been started, and the process has
    been killed exactly if waiting for it failed. *)
Theorem concat_stream_lifecycle (lib : PyLib) (settings : Settings)
    (os : os_env) (d : directory) (w w1 : world) (file_list : list string)
    (g : generator) :
  fresh_tmp os w ->
  _concat_stream settings os d w file_list = (w1, Ok (IterGen g)) ->
  let valid_files := filter (usable d) file_list in
  let w2 := fst (iterate (IterGen g) w1) in
  valid_files <> []
  /\ w_tmp w1 = (g_list_path g, manifest settings valid_files) :: w_tmp w
  /\ w_spawned w1 = w_spawned w ++ [concat_cmd settings (g_list_path g)]
  /\ w_killed w1 = w_killed w
  /\ w_tmp w2 = w_tmp w
  /\ w_spawned w2 = w_spawned w1
  /\ w_killed w2 = w_killed w ++ killed_by_cleanup g.
Proof.
  intros Hfresh. unfold _concat_stream.
  destruct file_list as [|p0 rest]; [discriminate|].
  destruct (valid_files_of d (p0 :: rest)) as [[|v vs]|e'] eqn:Hv;
    [discriminate| |discriminate].
  apply valid_files_ok in Hv.
  destruct (os_mktemp os) as [list_path|exc] eqn:Hmk; [|discriminate].
  destruct (os_popen os (concat_cmd settings list_path)) as [proc|exc];
    [|discriminate].
  intros H. injection H as <- <-. rewrite <- Hv.
  split; [discriminate|]. split; [reflexivity|]. split; [reflexivity|].
  split; [reflexivity|].
  unfold iterate. rewrite run_gen_eq. cbn [fst].
  unfold gen_cleanup, killed_by_cleanup. cbn [g_proc g_list_path].
  rewrite tmp_remove_tmp.
  assert (Hf : ~ In list_path (map fst (w_tmp w))) by (apply Hfresh, Hmk).
  destruct (proc_wait proc); cbn; rewrite String.eqb_refl; cbn;
    rewrite (filter_fresh _ _ Hf), ?app_nil_r; auto.
Qed.

(** A request on [small_dir] whose concatenator does not end in time. *)
Lemma concat_stream_lifecycle_witness :
  let w1 :=
    fst (_concat_stream (lib := Concrete.lib) default_settings
           (Concrete.os_with Concrete.stuck_process) Concrete.small_dir
           Concrete.empty_world ["seg_20240101_120000.mp3"]%string) in
  let w2 :=
    fst (iterate (lib := Concrete.lib)
           (IterGen (Concrete.generator_of Concrete.stuck_process)) w1) in
  w_tmp w2 = [] /\ w_killed w2 = [4246%Z].
Proof.
  intros w1 w2.
  destruct (@concat_stream_lifecycle Concrete.lib default_settings
              (Concrete.os_with Concrete.stuck_process) Concrete.small_dir
              Concrete.empty_world w1
              ["seg_20240101_120000.mp3"]%string
              (Concrete.generator_of Concrete.stuck_process))
    as (_ & _ & _ & _ & Htmp & _ & Hkilled).
  - intros list_path _ [].
  - reflexivity.
  - split; [exact Htmp|exact Hkilled].
Defined.

(** What the stream delivers is the output of the concatenator up to its
    first empty read or failed read: every chunk read before it, in order,
    and none that is empty; and the count [bytes_yielded] that the loop
    keeps is the number of bytes delivered. *)
Theorem gen_delivers_prefix (lib : PyLib) (g : generator) (w : world) :
  let got := delivered (snd (run_gen g w)) in
  Forall (fun c => c <> EmptyString) got
  /\ (exists rest,
        proc_stdout (g_proc g) = map Ok got ++ rest
        /\ match rest with
           | [] => True
           | Ok EmptyString :: _ => True
           | Ok (String _ _) :: _ => False
           | Raise e :: _ =>
               exists detail,
                 ended (snd (run_gen g w)) = Raised (HTTPException 500 detail)
           end)
  /\ snd (fst (read_loop (proc_stdout (g_proc g)) 0))
     = Z.of_nat (String.length (String.concat "" got)).
Proof.
  intros got. unfold got. rewrite run_gen_eq. cbn [snd delivered ended].
  split; [|split].
  - generalize 0%Z.
    induction (proc_stdout (g_proc g)) as [|[[|a c]|e] rest IH]; intros n;
      try (simpl; constructor).
    rewrite read_loop_cons. cbn [fst]. constructor; [discriminate|apply IH].
  - assert (H : forall stdout n,
               exists rest,
                 stdout = map Ok (fst (fst (read_loop stdout n))) ++ rest
                 /\ match rest with
                    | [] => True
                    | Ok EmptyString :: _ => True
                    | Ok (String _ _) :: _ => False
                    | Raise e :: _ => snd (read_loop stdout n) = Raise e
                    end).
    { induction stdout as [|[[|a c]|e] rest IH]; intros n.
      - exists []. split; [reflexivity|exact I].
      - exists (Ok EmptyString :: rest). split; [reflexivity|exact I].
      - destruct (IH (n + Z.of_nat (String.length (String a c)))%Z)
          as (rest' & Heq & Hrest).
        exists rest'. rewrite read_loop_cons. cbn [fst snd map app].
        split; [f_equal; exact Heq|exact Hrest].
      - exists (Raise e :: rest). split; reflexivity. }
    destruct (H (proc_stdout (g_proc g)) 0%Z) as (rest & Heq & Hrest).
    exists rest. split; [exact Heq|].
    destruct rest as [|[[|a c]|e] rest']; try exact Hrest.
    rewrite Hrest. unfold ending_of, gen_except.
    destruct (pipe_read (proc_stderr (g_proc g))) as [r err'].
    eexists. reflexivity.
  - rewrite read_loop_count. lia.
Qed.

(** ** More on the endpoints *)

Section EndpointFacts.
Context {lib : PyLib}.
Variable settings : Settings.

Lemma query_minutes_raises (p : query_param) (e : exn) :
  query_minutes p = Raise e -> e = RequestValidationError.
Proof.
  destruct p as [| |z]; simpl; try discriminate.
  - intros H; injection H as <-. reflexivity.
  - destruct ((1 <=? z) && (z <=? 30))%Z; [discriminate|].
    intros H; injection H as <-. reflexivity.
Qed.

Lemma recent_segments_raises self d now minutes e :
  recent_segments_for_minutes self d now minutes = Raise e ->
  e = ZeroDivisionError.
Proof.
  unfold recent_segments_for_minutes, selected_segments,
    segments_needed_for, int_truediv.
  destruct (minutes <=? 0)%Z; [discriminate|].
  destruct (stable_segments_of d now); [discriminate|].
  destruct (segment_seconds self =? 0)%Z; simpl; [|discriminate].
  intros H; injection H as <-. reflexivity.
Qed.

Lemma concat_stream_raises os d w file_list w' e :
  _concat_stream settings os d w file_list = (w', Raise e) ->
  (exists detail, e = HTTPException 500 detail)
  \/ e = FileNotFoundError \/ e = OSError.
Proof.
  unfold _concat_stream.
  destruct file_list as [|p0 rest]; [discriminate|].
  destruct (valid_files_of d (p0 :: rest)) as [[|v vs]|e'] eqn:Hv.
  - discriminate.
  - destruct (os_mktemp os) as [list_path|exc].
    + destruct (os_popen os (concat_cmd settings list_path)) as [proc|exc];
        [discriminate|].
      intros H; injection H as _ <-. left. eexists. reflexivity.
    + intros H; injection H as _ <-. left. eexists. reflexivity.
  - intros H; injection H as _ <-. right.
    destruct (valid_files_raise _ _ Hv) as (p & _ & _ & Hst).
    exact (stat_raises _ _ Hst).
Qed.

(** What the selector returns can be read, is not empty and is old enough
    in the directory it was selected from. *)
Lemma selected_paths_stable self d now minutes l p :
  recent_segments_for_minutes self d now minutes = Ok l -> In p l ->
  exists st, stat d p = Ok st /\ stable_by_code now st = true.
Proof.
  intros Hl Hp.
  destruct (recent_segments_inv _ _ _ _ Hl) as (sel & Hsel & ->).
  apply in_map_iff in Hp. destruct Hp as (seg & <- & Hin).
  apply (selected_segments_incl _ _ _ _ Hsel) in Hin.
  apply in_stable_segments in Hin. destruct Hin as [_ Hex].
  apply examine_segment_some in Hex.
  destruct Hex as (st & Hst & Hcode & _). exists st. auto.
Qed.

Lemma selected_paths_usable self d now minutes l :
  recent_segments_for_minutes self d now minutes = Ok l ->
  readable d l /\ filter (usable d) l = l.
Proof.
  intros Hl. split.
  - intros p Hp _.
    destruct (selected_paths_stable _ _ _ _ _ Hl Hp) as (st & Hst & _).
    exists st. exact Hst.
  - apply forallb_filter_id, forallb_forall. intros p Hp.
    destruct (selected_paths_stable _ _ _ _ _ Hl Hp) as (st & Hst & Hc).
    apply usable_spec. unfold stable_by_code in Hc.
    apply andb_true_iff in Hc. destruct Hc as [Hsz _].
    apply negb_true_iff, N.eqb_neq in Hsz.
    split; [|exists st; auto].
    unfold path_exists, stat in *.
    destruct (lookup p (entries d)); [reflexivity|discriminate].
Qed.

Lemma describe_files_stable self d now minutes l :
  recent_segments_for_minutes self d now minutes = Ok l ->
  exists infos,
    describe_files settings d l = Ok infos
    /\ map fi_name infos = l
    /\ Forall (fun fi =>
                 fi_size_bytes fi <> 0%N
                 /\ (2 < now - fi_mtime fi)%Q
                 /\ fi_path fi
                    = (BUFFER_DIR settings ++ "/" ++ fi_name fi)%string) infos.
Proof.
  intros Hl.
  assert (Hall : forall p, In p l ->
            exists st, stat d p = Ok st /\ stable_by_code now st = true).
  { intros p Hp. eapply selected_paths_stable; eassumption. }
  clear Hl. induction l as [|p l IH].
  - exists []. repeat split. constructor.
  - destruct IH as (infos & Hinfos & Hnames & Hfor).
    { intros q Hq. apply Hall. right. exact Hq. }
    destruct (Hall p (or_introl eq_refl)) as (st & Hst & Hc).
    assert (Hex : path_exists d p = true).
    { unfold path_exists, stat in *.
      destruct (lookup p (entries d)); [reflexivity|discriminate]. }
    eexists. cbn [describe_files]. unfold describe_file.
    rewrite Hex, Hst, Hinfos. cbn [bind]. split; [reflexivity|].
    cbn [map fi_name]. split; [f_equal; exact Hnames|].
    constructor; [|exact Hfor]. cbn.
    unfold stable_by_code in Hc. apply andb_true_iff in Hc.
    destruct Hc as [Hsz Hm]. apply negb_true_iff in Hsz, Hm.
    apply N.eqb_neq in Hsz. repeat split; [exact Hsz|].
    destruct (Qlt_le_dec 2 (now - st_mtime st)) as [H|H]; [exact H|].
    exfalso. apply not_true_iff_false in Hm. apply Hm, Qle_bool_iff. lra.
Qed.

End EndpointFacts.

(** The answers of [download].  Its status is 200, 422, 500 or 503; it is
    422 exactly when the [minutes] parameter is refused and 503 exactly when
    the parameter is accepted and the selector returns nothing, and in both
    cases nothing has been written or started; and a request without the
    parameter is a request for two minutes. *)
Theorem download_status (lib : PyLib) (settings : Settings)
    (manager : FFmpegBufferManager) (os : os_env) (dir_listing : directory)
    (now : Q) (dir_use : directory) (w : world) (p : query_param) :
  let out := download settings manager os dir_listing now dir_use w p in
  let status := http_status (snd out) in
  (status = 200 \/ status = 422 \/ status = 500 \/ status = 503)%Z
  /\ (status = 422%Z <-> exists e, query_minutes p = Raise e)
  /\ (status = 503%Z <->
      exists minutes,
        query_minutes p = Ok minutes
        /\ recent_segments_for_minutes manager dir_listing now minutes = Ok [])
  /\ (status = 422%Z \/ status = 503%Z -> fst out = w)
  /\ download settings manager os dir_listing now dir_use w Absent
     = download settings manager os dir_listing now dir_use w (IntValue 2).
Proof.
  intros out status. unfold status, out, download.
  destruct (query_minutes p) as [minutes|e] eqn:Hq.
  2:{ rewrite (query_minutes_raises _ Hq). cbn.
      repeat split; auto; try discriminate; try lia.
      - intros _. eexists. reflexivity.
      - intros (m & H & _). discriminate. }
  destruct (recent_segments_for_minutes manager dir_listing now minutes)
    as [[|f files]|e] eqn:Hsel.
  - cbn. repeat split; auto; try discriminate; try lia.
    + intros (e & H). discriminate.
    + intros _. exists minutes. auto.
  - destruct (_concat_stream settings os dir_use w (f :: files))
      as [w' [stream|e]] eqn:Hc.
    + cbn. repeat split; auto; try discriminate; try lia.
      * intros (e & H). discriminate.
      * intros (m & Hm & Hr). injection Hm as <-. congruence.
    + assert (Hs : http_status (@Raise StreamingResponse e) = 500%Z).
      { destruct (concat_stream_raises _ _ _ _ _ Hc)
          as [(detail & ->)|[->| ->]]; reflexivity. }
      cbn [fst snd]. rewrite Hs.
      repeat split; auto; try discriminate; try lia.
      * intros (e' & H). discriminate.
      * intros (m & Hm & Hr). injection Hm as <-. congruence.
  - rewrite (recent_segments_raises _ _ _ _ Hsel). cbn.
    repeat split; auto; try discriminate; try lia.
    + intros (e' & H). discriminate.
    + intros (m & Hm & Hr). injection Hm as <-. congruence.
Qed.

(** A request for 45 minutes is refused and leaves the world untouched. *)
Lemma download_status_witness :
  fst (download (lib := Concrete.lib) default_settings Concrete.manager
         (Concrete.os_with Concrete.good_process) Concrete.long_dir
         Concrete.long_now Concrete.long_dir Concrete.empty_world
         (IntValue 45))
  = Concrete.empty_world.
Proof.
  refine (proj1 (proj2 (proj2 (proj2
            (download_status Concrete.lib default_settings Concrete.manager
               (Concrete.os_with Concrete.good_process) Concrete.long_dir
               Concrete.long_now Concrete.long_dir Concrete.empty_world
               (IntValue 45))))) _).
  left. reflexivity.
Defined.

(** A race that takes everything.  If segments were selected but every one
    of them has vanished or is empty when the streamer looks, [download]
    answers 200 with an empty body, not 503, and starts nothing. *)
Theorem download_all_vanished (lib : PyLib) (settings : Settings)
    (manager : FFmpegBufferManager) (os : os_env) (dir_listing : directory)
    (now : Q) (dir_use : directory) (w : world) (p : query_param)
    (minutes : Z) (files : list string) :
  query_minutes p = Ok minutes ->
  recent_segments_for_minutes manager dir_listing now minutes = Ok files ->
  files <> [] ->
  all_invalid dir_use files ->
  let out := download settings manager os dir_listing now dir_use w p in
  fst out = w
  /\ http_status (snd out) = 200%Z
  /\ (exists response,
        snd out = Ok response /\ body response = IterList []
        /\ delivered (snd (iterate (body response) w)) = []).
Proof.
  intros Hq Hsel Hne Hall out. unfold out, download.
  rewrite Hq, Hsel. destruct files as [|f files]; [congruence|].
  unfold _concat_stream. rewrite (valid_files_all_invalid Hall).
  cbn. repeat split. eexists. repeat split.
Qed.

(** The three segments selected from [small_dir] are all gone when the
    streamer looks. *)
Lemma download_all_vanished_witness :
  http_status
    (snd (download (lib := Concrete.lib) default_settings Concrete.manager
            (Concrete.os_with Concrete.good_process) Concrete.small_dir
            Concrete.small_now Concrete.empty_dir Concrete.empty_world
            (IntValue 1)))
  = 200%Z.
Proof.
  refine (proj1 (proj2
            (@download_all_vanished Concrete.lib default_settings
               Concrete.manager (Concrete.os_with Concrete.good_process)
               Concrete.small_dir Concrete.small_now Concrete.empty_dir
               Concrete.empty_world (IntValue 1) 1
               ["seg_20240101_120000.mp3"; "seg_20240101_120002.mp3";
                "seg_20240101_120004.mp3"]%string _ _ _ _))).
  - reflexivity.
  - vm_compute. reflexivity.
  - discriminate.
  - intros q _. left. reflexivity.
Defined.

(** A request served from a directory that does not change.  If the
    selector returns segments and the manifest and the process can be
    created, [download] writes a manifest of exactly the selected segments,
    oldest first, starts one concatenator on it, and answers with the
    generator as an [audio/mpeg] attachment named
    [last-<minutes>-minutes.mp3]. *)
Theorem download_streams_selection (lib : PyLib) (settings : Settings)
    (manager : FFmpegBufferManager) (os : os_env) (d : directory) (now : Q)
    (w : world) (p : query_param) (minutes : Z) (files : list string)
    (list_path : string) (proc : process) :
  query_minutes p = Ok minutes ->
  recent_segments_for_minutes manager d now minutes = Ok files ->
  files <> [] ->
  os_mktemp os = Ok list_path ->
  os_popen os (concat_cmd settings list_path) = Ok proc ->
  download settings manager os d now d w p
  = (spawn (concat_cmd settings list_path)
       (tmp_create list_path (manifest settings files) w),
     Ok {| body := IterGen {| g_proc := proc; g_list_path := list_path |};
           media_type := "audio/mpeg";
           headers :=
             [("Content-Disposition",
               "attachment; filename=last-" ++ str_int minutes
               ++ "-minutes.mp3");
              ("Cache-Control", "no-store")]%string |}).
Proof.
  intros Hq Hsel Hne Hmk Hpo. unfold download. rewrite Hq, Hsel.
  destruct (selected_paths_usable _ _ _ _ Hsel) as [Hr Hf].
  destruct files as [|f files]; [congruence|].
  unfold _concat_stream. rewrite (valid_files_readable Hr), Hf, Hmk, Hpo.
  reflexivity.
Qed.

(** A request for one minute on [small_dir]: the three stable segments are
    in the manifest, oldest first. *)
Lemma download_streams_selection_witness :
  w_tmp
    (fst (download (lib := Concrete.lib) default_settings Concrete.manager
            (Concrete.os_with Concrete.good_process) Concrete.small_dir
            Concrete.small_now Concrete.small_dir Concrete.empty_world
            (IntValue 1)))
  = [("/tmp/tmpk3v9.txt",
      manifest default_settings
        ["seg_20240101_120000.mp3"; "seg_20240101_120002.mp3";
         "seg_20240101_120004.mp3"])]%string.
Proof.
  rewrite (@download_streams_selection Concrete.lib default_settings
             Concrete.manager (Concrete.os_with Concrete.good_process)
             Concrete.small_dir Concrete.small_now Concrete.empty_world
             (IntValue 1) 1
             ["seg_20240101_120000.mp3"; "seg_20240101_120002.mp3";
              "seg_20240101_120004.mp3"]%string
             "/tmp/tmpk3v9.txt" Concrete.good_process).
  - reflexivity.
  - reflexivity.
  - vm_compute. reflexivity.
  - discriminate.
  - reflexivity.
  - reflexivity.
Defined.

(** [debug_segments] on a directory that does not change: for an accepted
    request whose selection does not raise, it answers with the number of
    selected segments and one entry for each, in the selector's order, that
    carries its name, its path under the buffer directory, a size that is
    not 0 and a modification time more than two seconds old. *)
Theorem debug_segments_reports (lib : PyLib) (settings : Settings)
    (manager : FFmpegBufferManager) (d : directory) (now : Q)
    (p : query_param) (minutes : Z) (files : list string) :
  query_minutes_debug p = Ok minutes ->
  recent_segments_for_minutes manager d now minutes = Ok files ->
  exists response,
    debug_segments settings manager d now d p = Ok response
    /\ dr_count response = Z.of_nat (List.length files)
    /\ dr_count response = Z.of_nat (List.length (dr_files response))
    /\ map fi_name (dr_files response) = files
    /\ Forall (fun fi =>
                 fi_size_bytes fi <> 0%N
                 /\ (2 < now - fi_mtime fi)%Q
                 /\ fi_path fi
                    = (BUFFER_DIR settings ++ "/" ++ fi_name fi)%string)
         (dr_files response).
Proof.
  intros Hq Hsel.
  destruct (describe_files_stable settings _ _ _ _ Hsel)
    as (infos & Hinfos & Hnames & Hfor).
  eexists. unfold debug_segments. rewrite Hq. cbn [bind].
  rewrite Hsel. cbn [bind]. rewrite Hinfos. cbn [bind].
  split; [reflexivity|]. cbn.
  repeat split; try assumption.
  rewrite <- Hnames at 1. rewrite length_map. reflexivity.
Qed.

(** [debug_segments] for 45 minutes on [small_dir]: three segments. *)
Lemma debug_segments_reports_witness :
  exists response,
    debug_segments (lib := Concrete.lib) default_settings Concrete.manager
      Concrete.small_dir Concrete.small_now Concrete.small_dir (IntValue 45)
    = Ok response
    /\ dr_count response = 3%Z.
Proof.
  destruct (@debug_segments_reports Concrete.lib default_settings
              Concrete.manager Concrete.small_dir Concrete.small_now
              (IntValue 45) 45
              ["seg_20240101_120000.mp3"; "seg_20240101_120002.mp3";
               "seg_20240101_120004.mp3"]%string)
    as (response & Hr & Hcount & _).
  - reflexivity.
  - vm_compute. reflexivity.
  - exists response. split; [exact Hr|exact Hcount].
Defined.

(** The answers of [debug_segments].  It accepts every integer
    [minutes >= 1], with no upper bound; its status is 200, 422 or 500 and
    never 503: when the selector returns nothing it answers 200 with a count
    of 0 and no file; and a selected file that has vanished when it is
    looked at is reported with size 0 and modification time 0. *)
Theorem debug_segments_status (lib : PyLib) (settings : Settings)
    (manager : FFmpegBufferManager) (dir_listing : directory) (now : Q)
    (dir_use : directory) (p : query_param) :
  let out := debug_segments settings manager dir_listing now dir_use p in
  (forall z, query_minutes_debug (IntValue z) = Ok z <-> (1 <= z)%Z)
  /\ (status_of out = 200 \/ status_of out = 422 \/ status_of out = 500)%Z
  /\ (forall minutes,
        query_minutes_debug p = Ok minutes ->
        recent_segments_for_minutes manager dir_listing now minutes = Ok [] ->
        out = Ok {| dr_count := 0; dr_files := [] |})
  /\ (forall f,
        path_exists dir_use f = false ->
        describe_file settings dir_use f
        = Ok {| fi_name := f; fi_size_bytes := 0; fi_mtime := 0;
                fi_path := (BUFFER_DIR settings ++ "/" ++ f)%string |}).
Proof.
  intros out. split; [|split; [|split]].
  - intros z. unfold query_minutes_debug.
    destruct (Z.leb_spec 1 z); split; intros Hz;
      try reflexivity; try discriminate; lia.
  - unfold out, debug_segments.
    destruct (query_minutes_debug p) as [minutes|e] eqn:Hq.
    + cbn [bind].
      destruct (recent_segments_for_minutes manager dir_listing now minutes)
        as [files|e] eqn:Hsel.
      * cbn [bind].
        destruct (describe_files settings dir_use files) as [infos|e] eqn:Hd.
        -- left. reflexivity.
        -- right. right. cbn [bind].
           assert (He : e = FileNotFoundError \/ e = OSError).
           { clear Hsel. revert e Hd.
             induction files as [|f files IH]; intros e; [discriminate|].
             cbn [describe_files]. unfold describe_file.
             destruct (path_exists dir_use f).
             - destruct (stat dir_use f) as [st|e'] eqn:Hst; cbn [bind].
               + destruct (describe_files settings dir_use files)
                   as [infos|e'']; cbn [bind]; [discriminate|].
                 intros H; injection H as <-. apply IH. reflexivity.
               + intros H; injection H as <-.
                 exact (stat_raises _ _ Hst).
             - cbn [bind].
               destruct (describe_files settings dir_use files)
                 as [infos|e'']; cbn [bind]; [discriminate|].
               intros H; injection H as <-. apply IH. reflexivity. }
           destruct He as [-> | ->]; reflexivity.
      * right. right. cbn [bind].
        rewrite (recent_segments_raises _ _ _ _ Hsel). reflexivity.
    + right. left. cbn [bind].
      assert (He : e = RequestValidationError).
      { destruct p as [| |z]; simpl in Hq; try discriminate.
        - injection Hq as <-. reflexivity.
        - destruct (1 <=? z)%Z; [discriminate|].
          injection Hq as <-. reflexivity. }
      rewrite He. reflexivity.
  - intros minutes Hq Hsel. unfold out, debug_segments.
    rewrite Hq. cbn [bind]. rewrite Hsel. reflexivity.
  - intros f Hf. unfold describe_file. rewrite Hf. reflexivity.
Qed.

(** A request when the only segment is too fresh: 200 and a count of 0. *)
Lemma debug_segments_status_witness :
  debug_segments (lib := Concrete.lib) default_settings Concrete.manager
    Concrete.edge_dir Concrete.edge_now Concrete.edge_dir (IntValue 2)
  = Ok {| dr_count := 0; dr_files := [] |}.
Proof.
  refine (proj1 (proj2 (proj2
            (debug_segments_status Concrete.lib default_settings
               Concrete.manager Concrete.edge_dir Concrete.edge_now
               Concrete.edge_dir (IntValue 2)))) 2%Z _ _).
  - reflexivity.
  - vm_compute. reflexivity.
Defined.
